(** * The realtime voice client: session protocol, turn arbitration, capture buffer

    A shallow embedding of [components/microphone.py], [components/events.py],
    [components/tools.py] and [components/client.py].

    - Python [str] and [bytes] are Rocq strings (sequences of 8-bit characters;
      a [str] stands for its UTF-8 text).
    - A Python [dict] is a [gmap string _]: the event records decoded from the
      wire, the handler registry of [EventHandlers] and [function_map].
    - Every method of [RealtimeAPI] runs in one monad [M]: it reads and writes
      the client object and the connection, appends what it does to the outside
      (log lines, frames sent, audio played, sleeps) to a trace, and may raise.
    - What the interpreter and the outside answer during one step (the clock,
      [json.loads] on the argument text, [base64.b64decode] on an audio delta,
      the random number and the wall clock of the two tools) is read from the
      [env] record delivered with the step.
    - The coroutines of [run] interleave at their [await]s; the order is given
      by a script of steps: a captured frame, a received message, a lost
      connection, a wake-up of the audio loop. A script that ends while a
      coroutine waits leaves the run waiting there.
    - The audio devices do what they are asked: opening, writing and closing
      a PyAudio stream are effects of the trace and do not raise. The lines
      [logging.info] of the microphone and [KeyboardInterrupt] are left out. *)

From Stdlib Require Import ZArith QArith Qround String Ascii Lia.
From stdpp Require Import base strings pretty list gmap.

Set Warnings "-register-all".

Open Scope string_scope.
Open Scope list_scope.

(* ===================================================================== *)
(** ** Python values *)
(* ===================================================================== *)

(** The values [json.loads] produces. A float is kept as the text Python
    prints for it; nothing here computes with floats. *)
Inductive json :=
| JNull
| JBool (b : bool)
| JInt (n : Z)
| JFloat (repr : string)
| JStr (s : string)
| JList (l : list json)
| JDict (d : gmap string json).

Abbreviation bytes := string (only parsing).
Abbreviation event := (gmap string json) (only parsing).

(** The exceptions the client can see. [ConnectionClosedOK] and
    [ConnectionClosedError] are the two subclasses of
    [websockets.ConnectionClosed]; the latter carries [str(e)]. *)
Inductive exn :=
| KeyError (key : string)
| AttributeError
| TypeError
| JSONDecodeError
| B64DecodeError
| ConnectionClosedOK
| ConnectionClosedError (reason : string)
| OtherError (text : string).

Definition is_ConnectionClosed (e : exn) : bool :=
  match e with
  | ConnectionClosedOK | ConnectionClosedError _ => true
  | _ => false
  end.

(** [d.get(k, dflt)] *)
Definition dict_get (d : gmap string json) (k : string) (dflt : json) : json :=
  default dflt (d !! k).

(** [bool(d)] for a dict: non-empty. *)
Definition dict_truthy (d : gmap string json) : bool := negb (size d =? 0)%nat.

(** [bool(s)] for a str or bytes: non-empty. *)
Definition str_truthy (s : string) : bool :=
  match s with EmptyString => false | String _ _ => true end.

(** Hashable values: what a [dict] accepts as a key ([dict.get] and [in] raise
    [TypeError] on a list or a dict). *)
Inductive hashable :=
| HNone
| HBool (b : bool)
| HInt (n : Z)
| HFloat (repr : string)
| HStr (s : string).

Definition py_hash (v : json) : option hashable :=
  match v with
  | JNull => Some HNone
  | JBool b => Some (HBool b)
  | JInt n => Some (HInt n)
  | JFloat r => Some (HFloat r)
  | JStr s => Some (HStr s)
  | JList _ | JDict _ => None
  end.

(** [str(v)] of a hashable value, as an f-string prints it. *)
Definition py_str (h : hashable) : string :=
  match h with
  | HNone => "None"
  | HBool true => "True"
  | HBool false => "False"
  | HInt n => pretty n
  | HFloat r => r
  | HStr s => s
  end.

(** [needle in hay] for two strs: [needle] occurs as a substring. *)
Fixpoint str_contains (needle hay : string) : bool :=
  String.prefix needle hay ||
  match hay with
  | EmptyString => false
  | String _ rest => str_contains needle rest
  end.

(** ["text" in v]: substring of a str, element of a list, key of a dict;
    [None] is the [TypeError] of a value that is not iterable. *)
Definition py_in (needle : string) (v : json) : option bool :=
  match v with
  | JStr s => Some (str_contains needle s)
  | JList l =>
      Some (existsb (fun x => match x with JStr t => String.eqb t needle | _ => false end) l)
  | JDict d => Some (bool_decide (is_Some (d !! needle)))
  | JNull | JBool _ | JInt _ | JFloat _ => None
  end.

(** [b"".join(chunks)] *)
Definition join_bytes (chunks : list bytes) : bytes :=
  foldr String.append "" chunks.

(** [base64.b64encode(data).decode("utf-8")] (RFC 4648, with padding). *)
Definition b64_alphabet : string :=
  "ABCDEFGHIJKLMNOPQRSTUVWXYZabcdefghijklmnopqrstuvwxyz0123456789+/".

Definition b64_char (n : N) : ascii :=
  default "="%char (String.get (N.to_nat n) b64_alphabet).

Fixpoint b64encode (data : bytes) : string :=
  match data with
  | EmptyString => ""
  | String a EmptyString =>
      let x := N_of_ascii a in
      String (b64_char (x / 4)) (String (b64_char (x mod 4 * 16)) "==")
  | String a (String b EmptyString) =>
      let x := N_of_ascii a in
      let y := N_of_ascii b in
      String (b64_char (x / 4))
        (String (b64_char (x mod 4 * 16 + y / 16))
           (String (b64_char (y mod 16 * 4)) "="))
  | String a (String b (String c rest)) =>
      let x := N_of_ascii a in
      let y := N_of_ascii b in
      let z := N_of_ascii c in
      String (b64_char (x / 4))
        (String (b64_char (x mod 4 * 16 + y / 16))
           (String (b64_char (y mod 16 * 4 + z / 64))
              (String (b64_char (z mod 64)) (b64encode rest))))
  end%N.

(* ===================================================================== *)
(** ** components/events.py *)
(* ===================================================================== *)

Module ClientEvents.
Definition SESSION_UPDATE := "session.update".
Definition CONVERSATION_ITEM_CREATE := "conversation.item.create".
Definition RESPONSE_CREATE := "response.create".
Definition INPUT_AUDIO_BUFFER_APPEND := "input_audio_buffer.append".
Definition INPUT_AUDIO_BUFFER_COMMIT := "input_audio_buffer.commit".
End ClientEvents.

Module ServerEvents.
Definition SESSION_CREATED := "session.created".
Definition SESSION_UPDATED := "session.updated".
Definition RESPONSE_CREATED := "response.created".
Definition RESPONSE_DONE := "response.done".
Definition RESPONSE_TEXT_DELTA := "response.text.delta".
Definition RESPONSE_TEXT_DONE := "response.text.done".
Definition RESPONSE_AUDIO_DELTA := "response.audio.delta".
Definition RESPONSE_AUDIO_DONE := "response.audio.done".
Definition RESPONSE_OUTPUT_ITEM_ADDED := "response.output_item.added".
Definition RESPONSE_FUNCTION_CALL_ARGUMENTS_DELTA := "response.function_call_arguments.delta".
Definition RESPONSE_FUNCTION_CALL_ARGUMENTS_DONE := "response.function_call_arguments.done".
Definition INPUT_AUDIO_BUFFER_SPEECH_STARTED := "input_audio_buffer.speech_started".
Definition INPUT_AUDIO_BUFFER_SPEECH_STOPPED := "input_audio_buffer.speech_stopped".
Definition RATE_LIMITS_UPDATED := "rate_limits.updated".
Definition ERROR := "error".
End ServerEvents.

(** The events the client puts on the wire, before [json.dumps]. The [output]
    of a function-call-output item is the result value that the inner
    [json.dumps(result)] serialises. *)
Inductive content :=
| InputText (text : string)
| Text (text : string).

Inductive item :=
| Message (role : string) (parts : list content)
| FunctionCallOutput (call_id : json) (output : json).

Inductive client_event :=
| SessionUpdate (tools : list json)
| ConversationItemCreate (it : item)
| ResponseCreate
| InputAudioBufferAppend (audio : string)
| InputAudioBufferCommit.

Definition client_event_type (ev : client_event) : string :=
  match ev with
  | SessionUpdate _ => ClientEvents.SESSION_UPDATE
  | ConversationItemCreate _ => ClientEvents.CONVERSATION_ITEM_CREATE
  | ResponseCreate => ClientEvents.RESPONSE_CREATE
  | InputAudioBufferAppend _ => ClientEvents.INPUT_AUDIO_BUFFER_APPEND
  | InputAudioBufferCommit => ClientEvents.INPUT_AUDIO_BUFFER_COMMIT
  end.

(* ===================================================================== *)
(** ** components/microphone.py *)
(* ===================================================================== *)

Record AMicrophone := {
  queue : list bytes;
  is_recording : bool;
  is_receiving : bool;
}.

Module Mic.
(** [__init__]: an empty queue, both flags off. *)
Definition init : AMicrophone :=
  {| queue := []; is_recording := false; is_receiving := false |}.

(** [_callback(in_data, ...)], called by the device thread for each frame. *)
Definition _callback (in_data : bytes) (m : AMicrophone) : AMicrophone :=
  if is_recording m && negb (is_receiving m)
  then {| queue := queue m ++ [in_data];
          is_recording := is_recording m; is_receiving := is_receiving m |}
  else m.

Definition start_recording (m : AMicrophone) : AMicrophone :=
  {| queue := queue m; is_recording := true; is_receiving := is_receiving m |}.

Definition stop_recording (m : AMicrophone) : AMicrophone :=
  {| queue := queue m; is_recording := false; is_receiving := is_receiving m |}.

Definition start_receiving (m : AMicrophone) : AMicrophone :=
  {| queue := queue m; is_recording := false; is_receiving := true |}.

Definition stop_receiving (m : AMicrophone) : AMicrophone :=
  {| queue := queue m; is_recording := is_recording m; is_receiving := false |}.

(** The loop of [get_audio_data]: [data += self.queue.get()] until the queue
    is empty. *)
Fixpoint drain_loop (q : list bytes) (data : bytes) : bytes :=
  match q with
  | [] => data
  | frame :: rest => drain_loop rest (data +:+ frame)
  end.

(** [get_audio_data()]: the drained bytes, [None] when there are none, and
    the microphone with its queue emptied. *)
Definition get_audio_data (m : AMicrophone) : option bytes * AMicrophone :=
  let data := drain_loop (queue m) "" in
  (if str_truthy data then Some data else None,
   {| queue := []; is_recording := is_recording m; is_receiving := is_receiving m |}).
End Mic.

(* ===================================================================== *)
(** ** The client object, its surroundings and the monad of its methods *)
(* ===================================================================== *)

Record RealtimeAPI := {
  prompts : list string;
  tools : list json;
  exit_event : bool;
  microphone : AMicrophone;
  assistant_reply : string;
  audio_chunks : list bytes;
  response_in_progress : bool;
  function_call : option (gmap string json);
  function_call_args : string;
  response_start_time : option Z;
}.

(** A piece of a log line: f-strings are kept as their parts. *)
Inductive piece :=
| Lit (s : string)
| Val (v : json)
| Num (n : Z)
| Strs (l : list string)
| Exc (e : exn).

Inductive level := DEBUG | INFO | WARNING | ERROR.

(** What the client does to the outside, in the order it does it. *)
Inductive effect :=
| Log (lvl : level) (msg : list piece)
| Print (text : string)
| Connect
| Sent (ev : client_event)
| Sleep (seconds : Q)
| Play (audio : bytes) (silence_bytes : Z)
| MicClose
| WsClose.

(** The connection of the current attempt: open, or lost with the exception
    that [recv] and [send] raise from then on. *)
Inductive connection :=
| Open
| Lost (e : exn).

(** What one step learns from the interpreter and the outside. *)
Record env := {
  perf_counter : Z;                 (* time.perf_counter(), in clock ticks *)
  json_loads_args : option json;    (* json.loads(self.function_call_args); None: JSONDecodeError *)
  b64decode_delta : option bytes;   (* base64.b64decode(event["delta"]); None: it raises *)
  randint_1_100 : Z;                (* random.randint(1, 100) *)
  strftime_now : string;            (* datetime.now().strftime("%Y-%m-%d %H:%M:%S") *)
  call_error : string;              (* str(e) of the TypeError of a call with arguments
                                       the function does not take *)
}.

Record state := {
  self : RealtimeAPI;
  websocket : connection;
  trace : list effect;
}.

Inductive res (A : Type) :=
| Ok (a : A) (s : state)
| Raise (e : exn) (s : state).
Arguments Ok {A} a s.
Arguments Raise {A} e s.

Definition M (A : Type) := state -> res A.

Definition ret {A} (a : A) : M A := fun s => Ok a s.

Definition bind {A B} (m : M A) (k : A -> M B) : M B :=
  fun s => match m s with
           | Ok a s' => k a s'
           | Raise e s' => Raise e s'
           end.

Definition raise {A} (e : exn) : M A := fun s => Raise e s.

Notation "x <- m ;; k" := (bind m (fun x => k))
  (at level 100, m at next level, right associativity).
Notation "m ;; k" := (bind m (fun _ => k))
  (at level 100, right associativity).

(** [try: m  except <class>: handler], for the exceptions [catches] selects. *)
Definition try_except {A} (m : M A) (catches : exn -> bool) (handler : exn -> M A) : M A :=
  fun s => match m s with
           | Ok a s' => Ok a s'
           | Raise e s' => if catches e then handler e s' else Raise e s'
           end.

(** [try: m  finally: cleanup] *)
Definition try_finally {A} (m : M A) (cleanup : M unit) : M A :=
  fun s => match m s with
           | Ok a s' => (cleanup ;; ret a) s'
           | Raise e s' => (cleanup ;; raise e) s'
           end.

Definition get_self : M RealtimeAPI := fun s => Ok (self s) s.

Definition modify_self (f : RealtimeAPI -> RealtimeAPI) : M unit :=
  fun s => Ok tt {| self := f (self s); websocket := websocket s; trace := trace s |}.

Definition emit (e : effect) : M unit :=
  fun s => Ok tt {| self := self s; websocket := websocket s; trace := trace s ++ [e] |}.

(** [await websocket.send(json.dumps(ev))] *)
Definition ws_send (ev : client_event) : M unit :=
  fun s => match websocket s with
           | Open => emit (Sent ev) s
           | Lost e => Raise e s
           end.

(** [await websocket.close()] *)
Definition ws_close : M unit :=
  fun s => Ok tt {| self := self s;
                    websocket := match websocket s with
                                 | Open => Lost ConnectionClosedOK
                                 | Lost e => Lost e
                                 end;
                    trace := trace s ++ [WsClose] |}.


(** Field updates of the client object ([self.x = v]). *)
Definition set_exit_event (v : bool) (a : RealtimeAPI) : RealtimeAPI :=
  {| prompts := prompts a; tools := tools a; exit_event := v;
     microphone := microphone a; assistant_reply := assistant_reply a;
     audio_chunks := audio_chunks a; response_in_progress := response_in_progress a;
     function_call := function_call a; function_call_args := function_call_args a;
     response_start_time := response_start_time a |}.

Definition set_microphone (v : AMicrophone) (a : RealtimeAPI) : RealtimeAPI :=
  {| prompts := prompts a; tools := tools a; exit_event := exit_event a;
     microphone := v; assistant_reply := assistant_reply a;
     audio_chunks := audio_chunks a; response_in_progress := response_in_progress a;
     function_call := function_call a; function_call_args := function_call_args a;
     response_start_time := response_start_time a |}.

Definition set_assistant_reply (v : string) (a : RealtimeAPI) : RealtimeAPI :=
  {| prompts := prompts a; tools := tools a; exit_event := exit_event a;
     microphone := microphone a; assistant_reply := v;
     audio_chunks := audio_chunks a; response_in_progress := response_in_progress a;
     function_call := function_call a; function_call_args := function_call_args a;
     response_start_time := response_start_time a |}.

Definition set_audio_chunks (v : list bytes) (a : RealtimeAPI) : RealtimeAPI :=
  {| prompts := prompts a; tools := tools a; exit_event := exit_event a;
     microphone := microphone a; assistant_reply := assistant_reply a;
     audio_chunks := v; response_in_progress := response_in_progress a;
     function_call := function_call a; function_call_args := function_call_args a;
     response_start_time := response_start_time a |}.

Definition set_response_in_progress (v : bool) (a : RealtimeAPI) : RealtimeAPI :=
  {| prompts := prompts a; tools := tools a; exit_event := exit_event a;
     microphone := microphone a; assistant_reply := assistant_reply a;
     audio_chunks := audio_chunks a; response_in_progress := v;
     function_call := function_call a; function_call_args := function_call_args a;
     response_start_time := response_start_time a |}.

Definition set_function_call (v : option (gmap string json)) (a : RealtimeAPI) : RealtimeAPI :=
  {| prompts := prompts a; tools := tools a; exit_event := exit_event a;
     microphone := microphone a; assistant_reply := assistant_reply a;
     audio_chunks := audio_chunks a; response_in_progress := response_in_progress a;
     function_call := v; function_call_args := function_call_args a;
     response_start_time := response_start_time a |}.

Definition set_function_call_args (v : string) (a : RealtimeAPI) : RealtimeAPI :=
  {| prompts := prompts a; tools := tools a; exit_event := exit_event a;
     microphone := microphone a; assistant_reply := assistant_reply a;
     audio_chunks := audio_chunks a; response_in_progress := response_in_progress a;
     function_call := function_call a; function_call_args := v;
     response_start_time := response_start_time a |}.

Definition set_response_start_time (v : option Z) (a : RealtimeAPI) : RealtimeAPI :=
  {| prompts := prompts a; tools := tools a; exit_event := exit_event a;
     microphone := microphone a; assistant_reply := assistant_reply a;
     audio_chunks := audio_chunks a; response_in_progress := response_in_progress a;
     function_call := function_call a; function_call_args := function_call_args a;
     response_start_time := v |}.

(** [self.microphone.f()] *)
Definition with_microphone (f : AMicrophone -> AMicrophone) : M unit :=
  modify_self (fun a => set_microphone (f (microphone a)) a).

(* ===================================================================== *)
(** ** components/logging.py *)
(* ===================================================================== *)

Definition log_info (msg : list piece) : M unit := emit (Log INFO msg).
Definition log_error (msg : list piece) : M unit := emit (Log ERROR msg).
Definition log_warning (msg : list piece) : M unit := emit (Log WARNING msg).
Definition log_debug (msg : list piece) : M unit := emit (Log DEBUG msg).

(** [log_ws_event(direction, event)], given [event.get("type", "Unknown")]:
    the lookup [EVENT_EMOJIS.get(event_type, ...)] raises on an unhashable
    type. *)
Definition log_ws_event (direction : string) (event_type : json) : M unit :=
  match py_hash event_type with
  | None => raise TypeError
  | Some _ => emit (Log INFO [Lit direction; Val event_type])
  end.

Definition log_tool_call (function_name : string) (args result : json) : M unit :=
  emit (Log INFO [Lit "Calling function: "; Lit function_name; Lit " with args: "; Val args]) ;;
  emit (Log INFO [Lit "Function call result: "; Val result]).

Definition log_runtime (operation : string) (duration : Z) : M unit :=
  emit (Log INFO [Lit operation; Lit " took "; Num duration; Lit " seconds"]).

(* ===================================================================== *)
(** ** components/constants.py and components/tools.py *)
(* ===================================================================== *)

Definition ASSISTANT_NAME := "Jarvis".
Definition CHANNELS : Z := 1.
Definition RATE : Z := 24000.
Definition SILENCE_DURATION : Q := 2 # 10.

(** The outcome of awaiting [function_map[name]] called with the keyword
    arguments [args]: the value returned, or [str(e)] of the exception raised. *)
Inductive call_result :=
| Returned (v : json)
| Threw (description : string).

Definition tool := env -> json -> call_result.

(** A call of an [async def f()] without parameters on the keyword arguments
    [args]: the body runs
    when [args] is the empty dict; any other value is a [TypeError] of the
    call ([args] is not a mapping, or it names a keyword [f] does not take). *)
Definition call_without_parameters (body : env -> json) : tool :=
  fun w args =>
    match args with
    | JDict d => if dict_truthy d then Threw (call_error w) else Returned (body w)
    | _ => Threw (call_error w)
    end.

Definition get_random_number : tool :=
  call_without_parameters (fun w => JDict {[ "random_number" := JInt (randint_1_100 w) ]}).

Definition get_current_time : tool :=
  call_without_parameters (fun w => JDict {[ "current_time" := JStr (strftime_now w) ]}).

Definition function_map : gmap string tool :=
  <[ "get_random_number" := get_random_number ]>
    (<[ "get_current_time" := get_current_time ]> ∅).

Definition tool_descriptor (name description : string) : json :=
  JDict (<[ "type" := JStr "function" ]>
        (<[ "name" := JStr name ]>
        (<[ "description" := JStr description ]>
        (<[ "parameters" :=
              JDict (<[ "type" := JStr "object" ]>
                    (<[ "properties" := JDict ∅ ]>
                    (<[ "required" := JList [] ]> ∅))) ]> ∅)))).

Definition base_tools : list json :=
  [ tool_descriptor "get_current_time" "Returns the current time.";
    tool_descriptor "get_random_number" "Returns a random number between 1 and 100." ].

(** [name in function_map], then [function_map[name]]: [None] is the
    [TypeError] of an unhashable name. *)
Definition function_map_lookup (function_name : json) : option (hashable * option tool) :=
  match py_hash function_name with
  | None => None
  | Some (HStr s) => Some (HStr s, function_map !! s)
  | Some h => Some (h, None)
  end.

(* ===================================================================== *)
(** ** components/client.py: the methods of RealtimeAPI *)
(* ===================================================================== *)

(** [__init__(prompts, tools=tools)]; [tools or base_tools]. *)
Definition init (given_prompts : list string) (given_tools : list json) : RealtimeAPI :=
  {| prompts := given_prompts;
     tools := match given_tools with [] => base_tools | _ => given_tools end;
     exit_event := false;
     microphone := Mic.init;
     assistant_reply := "";
     audio_chunks := [];
     response_in_progress := false;
     function_call := None;
     function_call_args := "";
     response_start_time := None |}.

Definition initialize_session : M unit :=
  a <- get_self ;;
  log_ws_event "Outgoing" (JStr ClientEvents.SESSION_UPDATE) ;;
  ws_send (SessionUpdate (tools a)).

Definition send_error_message_to_assistant (error_message : string) : M unit :=
  log_ws_event "Outgoing" (JStr ClientEvents.CONVERSATION_ITEM_CREATE) ;;
  ws_send (ConversationItemCreate (Message "assistant" [Text error_message])).

Definition error_result (error_message : string) : json :=
  JDict {[ "error" := JStr error_message ]}.

Definition execute_function_call (function_name call_id args : json) (w : env) : M unit :=
  result <-
    match function_map_lookup function_name with
    | None => raise TypeError
    | Some (HStr name, Some f) =>
        match f w args with
        | Returned result =>
            log_tool_call name args result ;;
            ret result
        | Threw description =>
            let error_message :=
              "Error executing function '" +:+ name +:+ "': " +:+ description in
            log_error [Lit error_message] ;;
            send_error_message_to_assistant error_message ;;
            ret (error_result error_message)
        end
    | Some (h, _) =>
        let error_message := "Function '" +:+ py_str h +:+ "' not found." in
        log_error [Lit error_message] ;;
        send_error_message_to_assistant error_message ;;
        ret (error_result error_message)
    end ;;
  log_ws_event "Outgoing" (JStr ClientEvents.CONVERSATION_ITEM_CREATE) ;;
  ws_send (ConversationItemCreate (FunctionCallOutput call_id result)) ;;
  ws_send ResponseCreate ;;
  modify_self (set_function_call None) ;;
  modify_self (set_function_call_args "").

Definition play_audio_with_silence_buffer (audio_data : bytes) : M unit :=
  let silence_samples := (Qfloor (inject_Z RATE * SILENCE_DURATION) * CHANNELS * 2)%Z in
  emit (Play audio_data silence_samples) ;;
  emit (Sleep (1 # 2)) ;;
  log_debug [Lit "Agent completed audio playback"].

Definition handle_response_created (ev : event) (w : env) : M unit :=
  with_microphone Mic.start_receiving ;;
  modify_self (set_response_in_progress true).

Definition handle_output_item_added (ev : event) (w : env) : M unit :=
  match dict_get ev "item" (JDict ∅) with
  | JDict item =>
      match dict_get item "type" JNull with
      | JStr "function_call" =>
          modify_self (set_function_call (Some item)) ;;
          modify_self (set_function_call_args "")
      | _ => ret tt
      end
  | _ => raise AttributeError
  end.

Definition handle_function_call_arguments_delta (ev : event) (w : env) : M unit :=
  match dict_get ev "delta" (JStr "") with
  | JStr delta => modify_self (fun a => set_function_call_args (function_call_args a +:+ delta) a)
  | _ => raise TypeError
  end.

Definition handle_function_call_arguments_done (ev : event) (w : env) : M unit :=
  a <- get_self ;;
  match function_call a with
  | Some fc =>
      if dict_truthy fc then
        let function_name := dict_get fc "name" JNull in
        let call_id := dict_get fc "call_id" JNull in
        log_info [Lit "Function call: "; Val function_name; Lit " with args: ";
                  Lit (function_call_args a)] ;;
        let args :=
          if str_truthy (function_call_args a)
          then match json_loads_args w with
               | Some v => v
               | None => JDict ∅       (* except json.JSONDecodeError *)
               end
          else JDict ∅ in
        execute_function_call function_name call_id args w
      else ret tt
  | None => ret tt
  end.

Definition handle_response_text_delta (ev : event) (w : env) : M unit :=
  match dict_get ev "delta" (JStr "") with
  | JStr delta =>
      modify_self (fun a => set_assistant_reply (assistant_reply a +:+ delta) a) ;;
      emit (Print ("Assistant: " +:+ delta))
  | _ => raise TypeError
  end.

Definition handle_response_audio_delta (ev : event) (w : env) : M unit :=
  match ev !! "delta" with
  | None => raise (KeyError "delta")
  | Some _ =>
      match b64decode_delta w with
      | Some chunk => modify_self (fun a => set_audio_chunks (audio_chunks a ++ [chunk]) a)
      | None => raise B64DecodeError
      end
  end.

Definition handle_response_done (ev : event) (w : env) : M unit :=
  a <- get_self ;;
  match response_start_time a with
  | Some start =>
      log_runtime "realtime_api_response" (perf_counter w - start) ;;
      modify_self (set_response_start_time None)
  | None => ret tt
  end ;;
  log_info [Lit "Assistant response complete."] ;;
  match audio_chunks a with
  | [] => ret tt
  | _ =>
      let audio_data := join_bytes (audio_chunks a) in
      log_info [Lit "Sending "; Num (Z.of_nat (String.length audio_data));
                Lit " bytes of audio data to self.play_audio_with_silence_buffer()"] ;;
      play_audio_with_silence_buffer audio_data ;;
      log_info [Lit "Finished self.play_audio_with_silence_buffer()"]
  end ;;
  modify_self (set_assistant_reply "") ;;
  modify_self (set_audio_chunks []) ;;
  log_info [Lit "Calling stop_receiving()"] ;;
  with_microphone Mic.stop_receiving.

Definition handle_error (ev : event) (w : env) : M unit :=
  match dict_get ev "error" (JDict ∅) with
  | JDict err =>
      let error_message := dict_get err "message" (JStr "") in
      log_error [Lit "Error: "; Val error_message] ;;
      match py_in "buffer is empty" error_message with
      | None => raise TypeError
      | Some true =>
          log_info [Lit "Received 'buffer is empty' error, no audio data sent."]
      | Some false =>
          match py_in "Conversation already has an active response" error_message with
          | None => raise TypeError
          | Some true =>
              log_info [Lit "Received 'active response' error, adjusting response flow."] ;;
              modify_self (set_response_in_progress true)
          | Some false =>
              log_error [Lit "Unhandled error: "; Val error_message]
          end
      end
  | _ => raise AttributeError
  end.

Definition handle_speech_started (ev : event) (w : env) : M unit :=
  log_info [Lit "Speech detected, listening..."].

Definition handle_speech_stopped (ev : event) (w : env) : M unit :=
  with_microphone Mic.stop_recording ;;
  log_info [Lit "Speech ended, processing..."] ;;
  modify_self (set_response_start_time (Some (perf_counter w))) ;;
  ws_send InputAudioBufferCommit.

Definition handle_rate_limits_updated (ev : event) (w : env) : M unit :=
  modify_self (set_response_in_progress false) ;;
  with_microphone (fun m => {| queue := queue m; is_recording := true;
                               is_receiving := is_receiving m |}) ;;
  log_info [Lit "Resumed recording after rate_limits.updated"].

(** The registry of [components/events.py]. *)
Abbreviation handler := (event -> env -> M unit) (only parsing).

Module EventHandlers.
Definition init : gmap string handler := ∅.

Definition register (event_type : string) (h : handler)
    (_handlers : gmap string handler) : gmap string handler :=
  <[ event_type := h ]> _handlers.

(** [self._handlers.get(event_type)]; the outer [None] is the [TypeError] of
    an unhashable key. *)
Definition get_handler (_handlers : gmap string handler) (event_type : json)
    : option (option handler) :=
  match py_hash event_type with
  | None => None
  | Some (HStr s) => Some (_handlers !! s)
  | Some _ => Some None
  end.
End EventHandlers.

(** [_register_event_handlers()], run once by [__init__]: the registry is the
    same for the whole life of the client. *)
Definition _register_event_handlers : gmap string handler :=
  EventHandlers.register ServerEvents.RATE_LIMITS_UPDATED handle_rate_limits_updated
  (EventHandlers.register ServerEvents.INPUT_AUDIO_BUFFER_SPEECH_STOPPED handle_speech_stopped
  (EventHandlers.register ServerEvents.INPUT_AUDIO_BUFFER_SPEECH_STARTED handle_speech_started
  (EventHandlers.register ServerEvents.ERROR handle_error
  (EventHandlers.register ServerEvents.RESPONSE_DONE handle_response_done
  (EventHandlers.register ServerEvents.RESPONSE_AUDIO_DELTA handle_response_audio_delta
  (EventHandlers.register ServerEvents.RESPONSE_TEXT_DELTA handle_response_text_delta
  (EventHandlers.register ServerEvents.RESPONSE_FUNCTION_CALL_ARGUMENTS_DONE
     handle_function_call_arguments_done
  (EventHandlers.register ServerEvents.RESPONSE_FUNCTION_CALL_ARGUMENTS_DELTA
     handle_function_call_arguments_delta
  (EventHandlers.register ServerEvents.RESPONSE_OUTPUT_ITEM_ADDED handle_output_item_added
  (EventHandlers.register ServerEvents.RESPONSE_CREATED handle_response_created
     EventHandlers.init)))))))))).

Definition event_handlers : gmap string handler := _register_event_handlers.

Definition handle_event (ev : event) (w : env) : M unit :=
  let event_type := dict_get ev "type" JNull in
  match EventHandlers.get_handler event_handlers event_type with
  | None => raise TypeError
  | Some (Some h) => h ev w
  | Some None => log_warning [Lit "Unhandled event type: "; Val event_type]
  end.

(* ===================================================================== *)
(** ** The message loop, the audio loop and [run] *)
(* ===================================================================== *)

(** What [json.loads(message)] makes of a received text: the decoded value,
    or [Malformed] when it raises. *)
Inductive message :=
| Decoded (v : json)
| Malformed.

(** [await websocket.recv()] when [arrival] is the next message on the wire;
    it raises once the connection is lost. *)
Definition ws_recv (arrival : message * env) : M (message * env) :=
  fun s => match websocket s with
           | Open => Ok arrival s
           | Lost e => Raise e s
           end.

(** One turn of the [while True] of [process_ws_messages]: [true] to go
    round again, [false] after [break]. *)
Definition process_ws_message (incoming : M (message * env)) : M bool :=
  try_except
    (arrival <- incoming ;;
     match arrival with
     | (Malformed, _) => raise JSONDecodeError
     | (Decoded (JDict ev), w) =>
         log_ws_event "Incoming" (dict_get ev "type" (JStr "Unknown")) ;;
         handle_event ev w ;;
         ret true
     | (Decoded _, _) => raise AttributeError
     end)
    is_ConnectionClosed
    (fun _ => log_warning [Lit "WebSocket connection lost."] ;; ret false).

(** The task that runs [process_ws_messages]: waiting in [recv], returned, or
    ended by an exception that is kept until the task is awaited. *)
Inductive task :=
| Running
| Finished
| Failed (e : exn).

(** [process_ws_messages] over the messages that arrive, in order. *)
Fixpoint process_ws_messages (inbox : list (message * env)) (s : state) : task * state :=
  match inbox with
  | [] => (Running, s)
  | arrival :: rest =>
      match process_ws_message (ws_recv arrival) s with
      | Ok true s' => process_ws_messages rest s'
      | Ok false s' => (Finished, s')
      | Raise e s' => (Failed e, s')
      end
  end.

Record session := {
  st : state;
  ws_task : task;
}.

Definition ws_task_turn (incoming : M (message * env)) (ss : session) : session :=
  match ws_task ss with
  | Running =>
      match process_ws_message incoming (st ss) with
      | Ok true s' => {| st := s'; ws_task := Running |}
      | Ok false s' => {| st := s'; ws_task := Finished |}
      | Raise e s' => {| st := s'; ws_task := Failed e |}
      end
  | _ => ss
  end.

(** The pending [recv] of the task raises when the connection is lost. *)
Definition ws_task_wake (ss : session) : session :=
  match websocket (st ss) with
  | Lost e => ws_task_turn (raise e) ss
  | Open => ss
  end.

Definition lose_connection (e : exn) (s : state) : state :=
  {| self := self s;
     websocket := match websocket s with Open => Lost e | Lost e0 => Lost e0 end;
     trace := trace s |}.

(** What can happen while the coroutines of one connection wait. *)
Inductive step :=
| Frame (in_data : bytes)           (* the device thread calls [_callback] *)
| Receive (m : message) (w : env)   (* [recv] returns in the message task *)
| Drop (e : exn)                    (* the connection is lost *)
| Tick.                             (* the audio loop wakes from its sleep *)

Definition background (stp : step) (ss : session) : session :=
  match stp with
  | Frame in_data =>
      {| st := {| self := set_microphone (Mic._callback in_data (microphone (self (st ss))))
                            (self (st ss));
                  websocket := websocket (st ss);
                  trace := trace (st ss) |};
         ws_task := ws_task ss |}
  | Receive m w => ws_task_turn (ws_recv (m, w)) ss
  | Drop e => ws_task_wake {| st := lose_connection e (st ss); ws_task := ws_task ss |}
  | Tick => ss
  end.

(** The body of the [while] of [send_user_audio], after its first sleep. *)
Definition send_user_audio_iteration : M unit :=
  a <- get_self ;;
  if negb (is_receiving (microphone a)) then
    let (audio_chunk, emptied) := Mic.get_audio_data (microphone a) in
    with_microphone (fun _ => emptied) ;;
    match audio_chunk with
    | Some chunk =>
        if (0 <? String.length chunk)%nat then
          let encoded_audio := b64encode chunk in
          if str_truthy encoded_audio then
            log_ws_event "Outgoing" (JStr ClientEvents.INPUT_AUDIO_BUFFER_APPEND) ;;
            ws_send (InputAudioBufferAppend encoded_audio)
          else log_debug [Lit "No audio data is available to send"]
        else ret tt
    | None => ret tt
    end
  else emit (Sleep (1 # 10)).

(** The [finally] of [send_user_audio]. *)
Definition send_user_audio_cleanup : M unit :=
  modify_self (set_exit_event true) ;;
  with_microphone Mic.stop_recording ;;
  emit MicClose ;;
  ws_close.

Definition after {A} (m : M A) (s : state) : state :=
  match m s with
  | Ok _ s' => s'
  | Raise _ s' => s'
  end.

Inductive ending :=
| Returns
| Raises (e : exn)
| Suspended.

(** The audio loop inside [await asyncio.sleep(0.1)]: the other coroutines and
    the device thread run until the [Tick]; then the body, the [while] test
    and the next sleep. *)
Fixpoint asleep (steps : list step) (ss : session) : ending * session :=
  match steps with
  | [] => (Suspended, ss)
  | Tick :: rest =>
      match send_user_audio_iteration (st ss) with
      | Ok _ s' =>
          if exit_event (self s')
          then (Returns, {| st := s'; ws_task := ws_task ss |})
          else asleep rest {| st := after (emit (Sleep (1 # 10))) s'; ws_task := ws_task ss |}
      | Raise e s' => (Raises e, {| st := s'; ws_task := ws_task ss |})
      end
  | stp :: rest => asleep rest (background stp ss)
  end.

Definition send_user_audio (steps : list step) (ss : session) : ending * session :=
  let (how, ss') :=
    if exit_event (self (st ss))
    then (Returns, ss)
    else asleep steps {| st := after (emit (Sleep (1 # 10))) (st ss); ws_task := ws_task ss |} in
  match how with
  | Suspended => (Suspended, ss')
  | _ => (how, {| st := after send_user_audio_cleanup (st ss'); ws_task := ws_task ss' |})
  end.

Definition send_initial_prompts : M unit :=
  a <- get_self ;;
  log_info [Lit "Sending "; Num (Z.of_nat (length (prompts a))); Lit " prompts: ";
            Strs (prompts a)] ;;
  log_ws_event "Outgoing" (JStr ClientEvents.CONVERSATION_ITEM_CREATE) ;;
  ws_send (ConversationItemCreate (Message "user" (map InputText (prompts a)))) ;;
  log_ws_event "Outgoing" (JStr ClientEvents.RESPONSE_CREATE) ;;
  ws_send ResponseCreate.

(** One connection attempt of [run]: whether [websockets.connect] raises, and
    what happens while the session is up. *)
Record attempt := {
  connect_raises : option exn;
  steps : list step;
}.

Inductive outcome :=
| Completed (s : state)
| Propagates (e : exn) (s : state)
| StillRunning (ss : session).

(** [await ws_task]: the task has returned, or its exception is raised here,
    or it is still waiting in [recv]. *)
Definition await_ws_task (ss : session) : outcome :=
  let ss' := ws_task_wake ss in
  match ws_task ss' with
  | Finished => Completed (st ss')
  | Failed e => Propagates e (st ss')
  | Running => StillRunning ss'
  end.

(** The body of the [async with], on a fresh connection. *)
Definition session_body (script : list step) (s : state) : outcome :=
  match (log_info [Lit "{ASSISTANT_NAME} is online."] ;; initialize_session) s with
  | Raise e s1 => Propagates e s1
  | Ok _ s1 =>
      match (log_info [Lit ASSISTANT_NAME;
                       Lit " is listening. Begin the conversation whenever you'd like."] ;;
             a <- get_self ;;
             match prompts a with
             | [] => with_microphone Mic.start_recording ;;
                     log_info [Lit "Recording started..."]
             | _ => send_initial_prompts
             end) s1 with
      | Raise e s2 => Propagates e s2
      | Ok _ s2 =>
          match send_user_audio script {| st := s2; ws_task := Running |} with
          | (Suspended, ss) => StillRunning ss
          | (Raises e, ss) => Propagates e (st ss)
          | (Returns, ss) => await_ws_task ss
          end
      end
  end.

(** The [try] block of [run]: connect, run the session, and leave the
    [async with], which closes the connection on every way out. *)
Definition attempt_body (att : attempt) (s : state) : outcome :=
  let s0 := after (emit Connect) s in
  match connect_raises att with
  | Some e => Propagates e s0
  | None =>
      match session_body (steps att)
              {| self := self s0; websocket := Open; trace := trace s0 |} with
      | Completed s' => Completed (after ws_close s')
      | Propagates e s' => Propagates e (after ws_close s')
      | StillRunning ss => StillRunning ss
      end
  end.

(** The [finally] of [run]. *)
Definition run_cleanup : M unit :=
  with_microphone Mic.stop_recording ;;
  emit MicClose.

(** The clause [except Exception as e] of [run]: the log line, then the
    [finally]. *)
Definition unexpected_error (e : exn) : M unit :=
  log_error [Lit "An unexpected error occurred: "; Exc e] ;;
  run_cleanup.

(** The clause of [run] for a keep-alive timeout: the warning, the sleep and
    [continue], which runs the [finally] on its way. *)
Definition keepalive_recovery : M unit :=
  log_warning [Lit "WebSocket connection lost due to keepalive ping timeout. Reconnecting..."] ;;
  emit (Sleep 1) ;;
  run_cleanup.

Inductive run_result :=
| Stopped (s : state)        (* [run] has returned *)
| Active (ss : session)      (* a session is up and waiting *)
| Connecting (s : state).    (* about to open the next connection *)

(** [run()]: the [while True] over connection attempts. *)
Fixpoint run (attempts : list attempt) (s : state) : run_result :=
  match attempts with
  | [] => Connecting s
  | att :: rest =>
      match attempt_body att s with
      | Completed s' => Stopped (after run_cleanup s')
      | StillRunning ss => Active ss
      | Propagates (ConnectionClosedError reason) s' =>
          if str_contains "keepalive ping timeout" reason then
            run rest (after keepalive_recovery s')
          else
            Stopped (after (log_error [Lit "WebSocket connection closed unexpectedly: ";
                                       Exc (ConnectionClosedError reason)] ;;
                            run_cleanup) s')
      | Propagates e s' => Stopped (after (unexpected_error e) s')
      end
  end.

(** The client right after [__init__]; there is no connection yet. *)
Definition start (a : RealtimeAPI) : state :=
  {| self := a; websocket := Lost ConnectionClosedOK; trace := [] |}.

(* ===================================================================== *)
(** ** Vocabulary of the properties: runs of the capture queue *)
(* ===================================================================== *)

Module Capture.

(** The device thread delivers [frames], one [_callback] each. *)
Definition push_frames (frames : list bytes) (m : AMicrophone) : AMicrophone :=
  foldl (fun m in_data => Mic._callback in_data m) m frames.

(** What [get_audio_data] returns for the bytes [data] it collected. *)
Definition or_none (data : bytes) : option bytes :=
  if str_truthy data then Some data else None.

(** Everything that can touch the microphone, in any order: the device
    thread ([Arrives]), the audio loop ([Drains]) and the event handlers
    (the four methods, and the assignment [is_recording = True] of
    [handle_rate_limits_updated]). *)
Inductive op :=
| Arrives (in_data : bytes)
| Drains
| StartRecording
| StopRecording
| StartReceiving
| StopReceiving
| SetRecording.

Definition flags_after (o : op) (m : AMicrophone) : AMicrophone :=
  match o with
  | Arrives in_data => Mic._callback in_data m
  | Drains => (Mic.get_audio_data m).2
  | StartRecording => Mic.start_recording m
  | StopRecording => Mic.stop_recording m
  | StartReceiving => Mic.start_receiving m
  | StopReceiving => Mic.stop_receiving m
  | SetRecording => {| queue := queue m; is_recording := true;
                       is_receiving := is_receiving m |}
  end.

(** The results of the drains of a run, in order. *)
Fixpoint drained (ops : list op) (m : AMicrophone) : list (option bytes) :=
  match ops with
  | [] => []
  | Drains :: rest => (Mic.get_audio_data m).1 :: drained rest (flags_after Drains m)
  | o :: rest => drained rest (flags_after o m)
  end.

Definition final (ops : list op) (m : AMicrophone) : AMicrophone :=
  foldl (fun m o => flags_after o m) m ops.

(** The frames of a run that arrived while recording was on and receiving
    was off, in order of arrival. *)
Fixpoint captured (ops : list op) (m : AMicrophone) : list bytes :=
  match ops with
  | [] => []
  | Arrives in_data :: rest =>
      (if is_recording m && negb (is_receiving m) then [in_data] else [])
      ++ captured rest (flags_after (Arrives in_data) m)
  | o :: rest => captured rest (flags_after o m)
  end.

(** The bytes a consumer has seen: the drains that returned data. *)
Definition heard (results : list (option bytes)) : bytes :=
  join_bytes (map (default "") results).

End Capture.

(* ===================================================================== *)
(** ** Vocabulary of the properties: observations of a state *)
(* ===================================================================== *)

(** The frames put on the wire, in order. *)
Definition sent_events (t : list effect) : list client_event :=
  omap (fun e => match e with Sent ev => Some ev | _ => None end) t.


(** The state with [extra] appended to its trace. *)
Definition traced (extra : list effect) (s : state) : state :=
  {| self := self s; websocket := websocket s; trace := trace s ++ extra |}.


(** The log line of [process_ws_messages] for a received event. *)
Definition incoming (event_type : string) : effect :=
  Log INFO [Lit "Incoming"; Val (JStr event_type)].

(** A received event record, as the message loop gets it. *)
Definition arrival_of (ev : event) (w : env) : message * env := (Decoded (JDict ev), w).

(** [ev] is an arguments-delta event carrying the text [d]. *)
Definition is_arguments_delta (ev : event) (d : string) : Prop :=
  ev !! "type" = Some (JStr ServerEvents.RESPONSE_FUNCTION_CALL_ARGUMENTS_DELTA)
  /\ ev !! "delta" = Some (JStr d).

(** [ev] is an output-item-added event carrying the function-call item [it]. *)
Definition is_function_call_added (ev : event) (it : gmap string json) : Prop :=
  ev !! "type" = Some (JStr ServerEvents.RESPONSE_OUTPUT_ITEM_ADDED)
  /\ ev !! "item" = Some (JDict it)
  /\ it !! "type" = Some (JStr "function_call").

(** The contract of the function executor in the words of the specification
    (section 4.4), as a function of the name, the decoded arguments and what
    the tool computes: a name absent from the static mapping gives the
    structured error "not found" and nothing is called; a failing call gives
    a structured error carrying the failure description; a successful result
    is passed through unchanged. *)
Module FunctionExecutor.
Definition resolve (name : hashable) : option tool :=
  match name with
  | HStr n => function_map !! n
  | _ => None
  end.

Definition not_found (name : hashable) : string :=
  "Function '" +:+ py_str name +:+ "' not found.".

Definition failed (name : hashable) (description : string) : string :=
  "Error executing function '" +:+ py_str name +:+ "': " +:+ description.

Definition execute (name : hashable) (args : json) (w : env) : json :=
  match resolve name with
  | None => error_result (not_found name)
  | Some f =>
      match f w args with
      | Returned v => v
      | Threw description => error_result (failed name description)
      end
  end.

(** The diagnostic message the client also sends to the assistant when the
    execution did not succeed. *)
Definition complaint (name : hashable) (args : json) (w : env) : list client_event :=
  match resolve name with
  | None => [ConversationItemCreate (Message "assistant" [Text (not_found name)])]
  | Some f =>
      match f w args with
      | Returned _ => []
      | Threw description =>
          [ConversationItemCreate (Message "assistant" [Text (failed name description)])]
      end
  end.
End FunctionExecutor.





(** The two gates of the microphone: (recording, receiving). *)
Definition turn_flags (s : state) : bool * bool :=
  (is_recording (microphone (self s)), is_receiving (microphone (self s))).

(** The state a run has reached. *)
Definition state_of_run (r : run_result) : state :=
  match r with
  | Stopped s => s
  | Active ss => st ss
  | Connecting s => s
  end.



(** Concrete inputs for the examples. *)
Module Sample.
(** An environment for steps that do not ask it anything but the clock. *)
Definition quiet : env :=
  {| perf_counter := 5;
     json_loads_args := None;
     b64decode_delta := None;
     randint_1_100 := 7;
     strftime_now := "2024-10-01 12:00:00";
     call_error := "" |}.

(** The environment of an audio delta whose text "eA==" decodes to "x". *)
Definition decoding_x : env :=
  {| perf_counter := 5;
     json_loads_args := None;
     b64decode_delta := Some "x";
     randint_1_100 := 7;
     strftime_now := "2024-10-01 12:00:00";
     call_error := "" |}.

Definition event_of (event_type : string) : event := {[ "type" := JStr event_type ]}.

Definition delta_event (event_type delta : string) : event :=
  <[ "delta" := JStr delta ]> (event_of event_type).

Definition call_item : gmap string json :=
  <[ "type" := JStr "function_call" ]>
    (<[ "name" := JStr "get_current_time" ]>
       (<[ "call_id" := JStr "call_1" ]> ∅)).

Definition added_event : event :=
  <[ "item" := JDict call_item ]> (event_of ServerEvents.RESPONSE_OUTPUT_ITEM_ADDED).


(** A client started without prompts, connected and recording. *)
Definition live : state :=
  {| self := set_microphone (Mic.start_recording Mic.init) (init [] []);
     websocket := Open;
     trace := [] |}.

Definition keepalive_timeout : exn :=
  ConnectionClosedError
    "sent 1011 (internal error) keepalive ping timeout; no close frame received".

(** A session in which the assistant answers over the user's turn, and the
    client is then told of new rate limits. *)
Definition overlapping_turns : attempt :=
  {| connect_raises := None;
     steps := [ Receive (Decoded (JDict (event_of ServerEvents.RESPONSE_CREATED))) quiet;
                Receive (Decoded (JDict (event_of ServerEvents.RATE_LIMITS_UPDATED))) quiet ] |}.



End Sample.



Module SampleCalls.

Definition done_event : event :=
  Sample.event_of ServerEvents.RESPONSE_FUNCTION_CALL_ARGUMENTS_DONE.

Definition two_deltas : list (gmap string json * env) :=
  [ (Sample.delta_event ServerEvents.RESPONSE_FUNCTION_CALL_ARGUMENTS_DELTA "{", Sample.quiet);
    (Sample.delta_event ServerEvents.RESPONSE_FUNCTION_CALL_ARGUMENTS_DELTA "}", Sample.quiet) ].


End SampleCalls.

(** The audio handed to the output device, with the bytes of silence after
    it, in order. *)
Definition played (t : list effect) : list (string * Z) :=
  omap (fun e => match e with Play audio silence => Some (audio, silence) | _ => None end) t.

(** The text written to the terminal, in order. *)
Definition printed (t : list effect) : list string :=
  omap (fun e => match e with Print text => Some text | _ => None end) t.

(** [ev] is a text-delta event carrying the text [d]. *)
Definition is_text_delta (ev : gmap string json) (d : string) : Prop :=
  ev !! "type" = Some (JStr ServerEvents.RESPONSE_TEXT_DELTA)
  /\ ev !! "delta" = Some (JStr d).

(** [arrival] is an audio-delta event whose "delta" decodes to [chunk]. *)
Definition is_audio_delta (arrival : gmap string json * env) (chunk : string) : Prop :=
  arrival.1 !! "type" = Some (JStr ServerEvents.RESPONSE_AUDIO_DELTA)
  /\ is_Some (arrival.1 !! "delta")
  /\ b64decode_delta arrival.2 = Some chunk.

(** The log lines of [handle_response_done] when nothing was accumulated. *)
Definition response_done_quiet : list effect :=
  [ Log INFO [Lit "Assistant response complete."];
    Log INFO [Lit "Calling stop_receiving()"] ].

(** The client after [handle_response_done]. *)
Definition after_response_done (a : RealtimeAPI) : RealtimeAPI :=
  set_microphone (Mic.stop_receiving (microphone a))
    (set_audio_chunks [] (set_assistant_reply "" (set_response_start_time None a))).

(* ===================================================================== *)
(** * Properties *)
(* ===================================================================== *)

(** ** Strings and the monad *)

Lemma append_cons (c : ascii) (a b : string) : String c a +:+ b = String c (a +:+ b).
Proof. reflexivity. Qed.

Lemma append_empty_r (a : string) : a +:+ "" = a.
Proof.
  induction a as [|c a IH]; [reflexivity |].
  now rewrite append_cons, IH.
Qed.

Lemma append_assoc (a b c : string) : (a +:+ b) +:+ c = a +:+ (b +:+ c).
Proof.
  induction a as [|x a IH]; [reflexivity |].
  now rewrite !append_cons, IH.
Qed.

Lemma join_bytes_app (xs ys : list bytes) :
  join_bytes (xs ++ ys) = join_bytes xs +:+ join_bytes ys.
Proof.
  unfold join_bytes.
  induction xs as [|x xs IH]; simpl; [reflexivity |].
  now rewrite IH, append_assoc.
Qed.

Lemma drain_loop_join (q : list bytes) (data : bytes) :
  Mic.drain_loop q data = data +:+ join_bytes q.
Proof.
  revert data; induction q as [|frame q IH]; intros data; simpl.
  - unfold join_bytes; simpl. now rewrite append_empty_r.
  - rewrite IH, append_assoc. reflexivity.
Qed.

(** The registry answers each registered type with its handler. *)
Lemma registered_response_created :
  event_handlers !! ServerEvents.RESPONSE_CREATED = Some handle_response_created.
Proof. reflexivity. Qed.

Lemma registered_output_item_added :
  event_handlers !! ServerEvents.RESPONSE_OUTPUT_ITEM_ADDED = Some handle_output_item_added.
Proof. reflexivity. Qed.

Lemma registered_arguments_delta :
  event_handlers !! ServerEvents.RESPONSE_FUNCTION_CALL_ARGUMENTS_DELTA
  = Some handle_function_call_arguments_delta.
Proof. reflexivity. Qed.

Lemma registered_arguments_done :
  event_handlers !! ServerEvents.RESPONSE_FUNCTION_CALL_ARGUMENTS_DONE
  = Some handle_function_call_arguments_done.
Proof. reflexivity. Qed.

Lemma registered_text_delta :
  event_handlers !! ServerEvents.RESPONSE_TEXT_DELTA = Some handle_response_text_delta.
Proof. reflexivity. Qed.

Lemma registered_audio_delta :
  event_handlers !! ServerEvents.RESPONSE_AUDIO_DELTA = Some handle_response_audio_delta.
Proof. reflexivity. Qed.

Lemma registered_response_done :
  event_handlers !! ServerEvents.RESPONSE_DONE = Some handle_response_done.
Proof. reflexivity. Qed.


Lemma registered_speech_started :
  event_handlers !! ServerEvents.INPUT_AUDIO_BUFFER_SPEECH_STARTED = Some handle_speech_started.
Proof. reflexivity. Qed.

Lemma registered_speech_stopped :
  event_handlers !! ServerEvents.INPUT_AUDIO_BUFFER_SPEECH_STOPPED = Some handle_speech_stopped.
Proof. reflexivity. Qed.

Lemma registered_rate_limits_updated :
  event_handlers !! ServerEvents.RATE_LIMITS_UPDATED = Some handle_rate_limits_updated.
Proof. reflexivity. Qed.

(** Dispatch: an event whose type is registered goes to its handler. *)
Lemma handle_event_registered (ev : event) (w : env) (t : string) (h : handler) :
  ev !! "type" = Some (JStr t) ->
  event_handlers !! t = Some h ->
  handle_event ev w = h ev w.
Proof.
  intros Hty Hh. unfold handle_event, dict_get, EventHandlers.get_handler.
  rewrite Hty. simpl. now rewrite Hh.
Qed.

(* ===================================================================== *)
(** ** The capture queue *)
(* ===================================================================== *)

Lemma join_bytes_nil : join_bytes [] = "".
Proof. reflexivity. Qed.

Lemma join_bytes_cons (x : bytes) (l : list bytes) :
  join_bytes (x :: l) = x +:+ join_bytes l.
Proof. reflexivity. Qed.

Lemma callback_while_capturing (in_data : bytes) (q : list bytes) :
  Mic._callback in_data {| queue := q; is_recording := true; is_receiving := false |}
  = {| queue := q ++ [in_data]; is_recording := true; is_receiving := false |}.
Proof. reflexivity. Qed.

Lemma push_frames_open (frames : list bytes) (q : list bytes) :
  Capture.push_frames frames {| queue := q; is_recording := true; is_receiving := false |}
  = {| queue := q ++ frames; is_recording := true; is_receiving := false |}.
Proof.
  unfold Capture.push_frames.
  revert q; induction frames as [|f frames IH]; intros q; simpl.
  - now rewrite app_nil_r.
  - rewrite callback_while_capturing, IH. now rewrite <- app_assoc.
Qed.

Lemma callback_while_receiving (in_data : bytes) (q : list bytes) (recording : bool) :
  Mic._callback in_data {| queue := q; is_recording := recording; is_receiving := true |}
  = {| queue := q; is_recording := recording; is_receiving := true |}.
Proof. unfold Mic._callback; simpl. now rewrite andb_false_r. Qed.

Lemma or_none_default (data : bytes) : default "" (Capture.or_none data) = data.
Proof. now destruct data. Qed.

(** Nothing is lost, duplicated or reordered: what was Capture.drained, followed by
    what is still queued, is what was queued at first followed by the
    Capture.captured frames. *)
Lemma final_cons (o : Capture.op) (ops : list Capture.op) (m : AMicrophone) :
  Capture.final (o :: ops) m = Capture.final ops (Capture.flags_after o m).
Proof. reflexivity. Qed.

Lemma heard_cons (r : option bytes) (rs : list (option bytes)) :
  Capture.heard (r :: rs) = default "" r +:+ Capture.heard rs.
Proof. reflexivity. Qed.

Lemma drain_result (m : AMicrophone) :
  (Mic.get_audio_data m).1 = Capture.or_none (join_bytes (queue m)).
Proof. unfold Mic.get_audio_data; simpl. now rewrite drain_loop_join. Qed.

(** Nothing is lost, duplicated or reordered: what was Capture.drained, followed by
    what is still queued, is what was queued at first followed by the
    Capture.captured frames. *)
Lemma drained_is_captured (ops : list Capture.op) (m : AMicrophone) :
  Capture.heard (Capture.drained ops m) +:+ join_bytes (queue (Capture.final ops m))
  = join_bytes (queue m) +:+ join_bytes (Capture.captured ops m).
Proof.
  revert m; induction ops as [|o ops IH]; intros m.
  - cbn [Capture.drained Capture.captured Capture.final foldl Capture.heard map].
    rewrite join_bytes_nil, append_empty_r. reflexivity.
  - rewrite final_cons.
    destruct o; cbn [Capture.drained Capture.captured]; try (rewrite IH; reflexivity).
    + (* a frame arrives *)
      rewrite IH. cbn [Capture.flags_after]. unfold Mic._callback at 1.
      destruct (is_recording m && negb (is_receiving m)); cbn [queue app].
      * rewrite join_bytes_app, join_bytes_cons, join_bytes_cons, join_bytes_nil.
        rewrite append_empty_r, append_assoc. reflexivity.
      * reflexivity.
    + (* a drain *)
      rewrite heard_cons, append_assoc, IH, drain_result, or_none_default.
      cbn [Capture.flags_after Mic.get_audio_data snd queue].
      rewrite join_bytes_nil. reflexivity.
Qed.


(** C7. Frames pushed while recording is on and receiving is off are returned
    by the next drain as their concatenation in arrival order (the no-data
    sentinel [None] standing for empty data), and the drain after it returns
    the sentinel; a frame that arrives while receiving is on leaves the
    microphone as it was; and over every interleaving of arrivals, drains and
    flag changes the drains return, in order and without loss, exactly the
    frames that arrived while recording was on and receiving was off. *)
Theorem capture_queue_drain (frames : list bytes) :
  let m := Capture.push_frames frames
             {| queue := []; is_recording := true; is_receiving := false |} in
  (Mic.get_audio_data m).1 = Capture.or_none (join_bytes frames)
  /\ (Mic.get_audio_data (Mic.get_audio_data m).2).1 = None
  /\ (forall in_data q recording,
        Mic._callback in_data {| queue := q; is_recording := recording; is_receiving := true |}
        = {| queue := q; is_recording := recording; is_receiving := true |})
  /\ (forall ops m0,
        Capture.heard (Capture.drained ops m0) +:+ join_bytes (queue (Capture.final ops m0))
        = join_bytes (queue m0) +:+ join_bytes (Capture.captured ops m0)).
Proof.
  intros m. subst m. rewrite push_frames_open. simpl.
  rewrite drain_loop_join.
  repeat split.
  - apply callback_while_receiving.
  - apply drained_is_captured.
Qed.

(* ===================================================================== *)
(** ** The message loop *)
(* ===================================================================== *)

Lemma traced_nil (s : state) : traced [] s = s.
Proof. destruct s; unfold traced; simpl. now rewrite app_nil_r. Qed.

Lemma traced_traced (xs ys : list effect) (s : state) :
  traced ys (traced xs s) = traced (xs ++ ys) s.
Proof. unfold traced; simpl. now rewrite app_assoc. Qed.


(** One turn of the loop on an open connection: the event is logged and
    dispatched; a [ConnectionClosed] from the handler ends the loop, any
    other exception leaves it. *)
Lemma process_ws_message_open (ev : event) (w : env) (t : string) (s : state) :
  websocket s = Open ->
  ev !! "type" = Some (JStr t) ->
  process_ws_message (ws_recv (arrival_of ev w)) s
  = match handle_event ev w (traced [incoming t] s) with
    | Ok _ s' => Ok true s'
    | Raise e s' =>
        if is_ConnectionClosed e
        then Ok false (traced [Log WARNING [Lit "WebSocket connection lost."]] s')
        else Raise e s'
    end.
Proof.
  intros Hopen Hty.
  unfold process_ws_message, try_except, bind, ws_recv, arrival_of.
  rewrite Hopen. unfold dict_get. rewrite Hty. simpl.
  unfold traced, incoming.
  destruct (handle_event ev w _) as [[] s'|e s']; simpl; [reflexivity|].
  destruct (is_ConnectionClosed e); reflexivity.
Qed.

(** C9. With no pending function call, the arguments-done event does
    nothing: no function runs, nothing is sent or logged, and the state is
    the one before. *)
Theorem arguments_done_without_pending_call (ev : event) (w : env) (s : state) :
  ev !! "type" = Some (JStr ServerEvents.RESPONSE_FUNCTION_CALL_ARGUMENTS_DONE) ->
  function_call (self s) = None ->
  handle_function_call_arguments_done ev w s = Ok tt s
  /\ handle_event ev w s = Ok tt s.
Proof.
  intros Hty Hnone.
  assert (H : handle_function_call_arguments_done ev w s = Ok tt s).
  { unfold handle_function_call_arguments_done, bind, get_self. now rewrite Hnone. }
  split; [exact H|].
  now rewrite (handle_event_registered ev w _ _ Hty registered_arguments_done).
Qed.

(* ===================================================================== *)
(** ** Streaming the arguments of a function call *)
(* ===================================================================== *)

Lemma function_call_added_step (ev : event) (it : gmap string json) (w : env) (s : state) :
  websocket s = Open ->
  is_function_call_added ev it ->
  process_ws_message (ws_recv (arrival_of ev w)) s
  = Ok true {| self := set_function_call_args "" (set_function_call (Some it) (self s));
               websocket := Open;
               trace := trace s ++ [incoming ServerEvents.RESPONSE_OUTPUT_ITEM_ADDED] |}.
Proof.
  intros Hopen (Hty & Hitem & Hfc).
  rewrite (process_ws_message_open ev w _ s Hopen Hty).
  rewrite (handle_event_registered ev w _ _ Hty registered_output_item_added).
  unfold handle_output_item_added, dict_get. rewrite Hitem; simpl. rewrite Hfc; simpl.
  unfold bind, modify_self, traced; simpl. now rewrite Hopen.
Qed.

Lemma arguments_delta_step (ev : event) (d : string) (w : env) (s : state) :
  websocket s = Open ->
  is_arguments_delta ev d ->
  process_ws_message (ws_recv (arrival_of ev w)) s
  = Ok true {| self := set_function_call_args (function_call_args (self s) +:+ d) (self s);
               websocket := Open;
               trace := trace s ++ [incoming ServerEvents.RESPONSE_FUNCTION_CALL_ARGUMENTS_DELTA] |}.
Proof.
  intros Hopen (Hty & Hdelta).
  rewrite (process_ws_message_open ev w _ s Hopen Hty).
  rewrite (handle_event_registered ev w _ _ Hty registered_arguments_delta).
  unfold handle_function_call_arguments_delta, dict_get. rewrite Hdelta; simpl.
  unfold modify_self, traced; simpl. now rewrite Hopen.
Qed.

Lemma arguments_deltas_append (deltas : list (event * env)) (ds : list string) :
  Forall2 (fun a d => is_arguments_delta a.1 d) deltas ds ->
  forall s, websocket s = Open ->
  exists s',
    process_ws_messages (map (fun a => arrival_of a.1 a.2) deltas) s = (Running, s')
    /\ websocket s' = Open
    /\ function_call (self s') = function_call (self s)
    /\ function_call_args (self s') = function_call_args (self s) +:+ join_bytes ds.
Proof.
  induction 1 as [|[ev w] d deltas ds Hd _ IH]; intros s Hopen.
  - exists s. cbn [map process_ws_messages].
    rewrite join_bytes_nil, append_empty_r. auto.
  - cbn [map process_ws_messages fst snd].
    rewrite (arguments_delta_step ev d w s Hopen Hd).
    match goal with
    | |- context [process_ws_messages _ ?s1] =>
        destruct (IH s1 eq_refl) as (s' & Hrun & Hopen' & Hfc & Hargs)
    end.
    exists s'. rewrite Hrun. repeat split; [exact Hopen' | exact Hfc |].
    rewrite Hargs. cbn [self function_call_args set_function_call_args].
    rewrite join_bytes_cons. now rewrite append_assoc.
Qed.

(** C5. After an output-item-added event with a function-call item, the
    argument string built from the deltas [d1 .. dn] that follow is exactly
    [d1 + d2 + ... + dn], in order, and the pending call is still the item:
    this is the text the arguments-done event will find. *)
Theorem arguments_accumulate_in_order
    (s : state) (added : event) (it : gmap string json) (w0 : env)
    (deltas : list (event * env)) (ds : list string) :
  websocket s = Open ->
  is_function_call_added added it ->
  Forall2 (fun a d => is_arguments_delta a.1 d) deltas ds ->
  exists s',
    process_ws_messages (arrival_of added w0 :: map (fun a => arrival_of a.1 a.2) deltas) s
    = (Running, s')
    /\ function_call (self s') = Some it
    /\ function_call_args (self s') = join_bytes ds.
Proof.
  intros Hopen Hadded Hdeltas.
  cbn [process_ws_messages].
  rewrite (function_call_added_step added it w0 s Hopen Hadded).
  match goal with
  | |- context [process_ws_messages _ ?s1] =>
      destruct (arguments_deltas_append deltas ds Hdeltas s1 eq_refl)
        as (s' & Hrun & _ & Hfc & Hargs)
  end.
  exists s'. rewrite Hrun. split; [reflexivity|]. split.
  - rewrite Hfc. reflexivity.
  - rewrite Hargs. reflexivity.
Qed.

(* ===================================================================== *)
(** ** Executing a function call *)
(* ===================================================================== *)

Lemma sent_events_app (xs ys : list effect) :
  sent_events (xs ++ ys) = sent_events xs ++ sent_events ys.
Proof. apply omap_app. Qed.

(** What [execute_function_call] does on an open connection. *)
Lemma execute_function_call_outcome
    (function_name call_id args : json) (name : hashable) (w : env) (s : state) :
  websocket s = Open ->
  py_hash function_name = Some name ->
  exists s',
    execute_function_call function_name call_id args w s = Ok tt s'
    /\ sent_events (trace s')
       = sent_events (trace s)
         ++ FunctionExecutor.complaint name args w
         ++ [ConversationItemCreate
               (FunctionCallOutput call_id (FunctionExecutor.execute name args w));
             ResponseCreate]
    /\ self s' = set_function_call_args "" (set_function_call None (self s))
    /\ websocket s' = Open.
Proof.
  intros Hopen Hname. destruct s as [a c t]. simpl in Hopen. subst c.
  unfold execute_function_call, function_map_lookup. rewrite Hname.
  unfold FunctionExecutor.execute, FunctionExecutor.complaint.
  destruct name as [| b | n | r | n]; cbn [FunctionExecutor.resolve].
  5: destruct (function_map !! n) as [f|] eqn:Hf; [destruct (f w args) as [v|d] eqn:Hcall|].
  all: eexists; split; [reflexivity|]; cbn [trace self websocket].
  all: split;
    [ rewrite !sent_events_app; cbn [sent_events omap app]; cbn;
      rewrite ?app_nil_r, <- ?app_assoc; reflexivity |].
  all: split; reflexivity.
Qed.

(** C4. On an open connection, for every hashable name, every call id and
    every argument value, [execute_function_call] returns without raising;
    the result it sends back is the one of the executor's contract: the
    structured error "Function '<name>' not found." when the name is not in
    [function_map] (no function is called), a structured error carrying the
    failure description when the call raises, and the function's own result
    otherwise; the pending call is cleared. *)
Theorem execute_function_call_never_raises
    (function_name call_id args : json) (name : hashable) (w : env) (s : state) :
  websocket s = Open ->
  py_hash function_name = Some name ->
  exists s',
    execute_function_call function_name call_id args w s = Ok tt s'
    /\ sent_events (trace s')
       = sent_events (trace s)
         ++ FunctionExecutor.complaint name args w
         ++ [ConversationItemCreate
               (FunctionCallOutput call_id (FunctionExecutor.execute name args w));
             ResponseCreate]
    /\ self s' = set_function_call_args "" (set_function_call None (self s))
    /\ websocket s' = Open
    /\ (FunctionExecutor.resolve name = None ->
        FunctionExecutor.execute name args w
        = JDict {[ "error" := JStr ("Function '" +:+ py_str name +:+ "' not found.") ]})
    /\ (forall f description,
          FunctionExecutor.resolve name = Some f -> f w args = Threw description ->
          FunctionExecutor.execute name args w
          = JDict {[ "error" := JStr ("Error executing function '" +:+ py_str name
                                      +:+ "': " +:+ description) ]})
    /\ (forall f v,
          FunctionExecutor.resolve name = Some f -> f w args = Returned v ->
          FunctionExecutor.execute name args w = v).
Proof.
  intros Hopen Hname.
  destruct (execute_function_call_outcome function_name call_id args name w s Hopen Hname)
    as (s' & Hrun & Hsent & Hself & Hopen').
  exists s'. repeat split; try assumption.
  - unfold FunctionExecutor.execute. now intros ->.
  - unfold FunctionExecutor.execute. now intros f d -> ->.
  - unfold FunctionExecutor.execute. now intros f v -> ->.
Qed.


(* ===================================================================== *)
(** ** Error events *)
(* ===================================================================== *)




(* ===================================================================== *)
(** ** Events without their payload fields *)
(* ===================================================================== *)

(** C10. The audio-delta handler reads [event["delta"]] without a default:
    on a record that has only its type, it raises [KeyError], which neither
    [handle_event] nor the message loop catches, so the loop ends and the
    messages that follow are not handled; while the text-delta and
    arguments-delta handlers, which read [event.get("delta", "")], return
    normally on such a record. *)
Theorem audio_delta_without_delta_raises
    (w : env) (s : state) (a : RealtimeAPI) (t : list effect) (rest : list (message * env)) :
  handle_event (Sample.event_of ServerEvents.RESPONSE_AUDIO_DELTA) w s
  = Raise (KeyError "delta") s
  /\ process_ws_messages
       (arrival_of (Sample.event_of ServerEvents.RESPONSE_AUDIO_DELTA) w :: rest)
       {| self := a; websocket := Open; trace := t |}
     = (Failed (KeyError "delta"),
        {| self := a; websocket := Open;
           trace := t ++ [incoming ServerEvents.RESPONSE_AUDIO_DELTA] |})
  /\ handle_event (Sample.event_of ServerEvents.RESPONSE_TEXT_DELTA) w s
     = Ok tt {| self := set_assistant_reply (assistant_reply (self s) +:+ "") (self s);
                websocket := websocket s;
                trace := trace s ++ [Print "Assistant: "] |}
  /\ handle_event (Sample.event_of ServerEvents.RESPONSE_FUNCTION_CALL_ARGUMENTS_DELTA) w s
     = Ok tt {| self := set_function_call_args (function_call_args (self s) +:+ "") (self s);
                websocket := websocket s;
                trace := trace s |}.
Proof.
  assert (Hraise : forall s0,
    handle_event (Sample.event_of ServerEvents.RESPONSE_AUDIO_DELTA) w s0
    = Raise (KeyError "delta") s0).
  { intros s0.
    rewrite (handle_event_registered _ w ServerEvents.RESPONSE_AUDIO_DELTA
               handle_response_audio_delta); [reflexivity | reflexivity | ].
    exact registered_audio_delta. }
  split; [apply Hraise|]. split.
  - cbn [process_ws_messages].
    rewrite (process_ws_message_open _ w ServerEvents.RESPONSE_AUDIO_DELTA);
      [| reflexivity | reflexivity].
    rewrite Hraise. reflexivity.
  - split.
    + rewrite (handle_event_registered _ w ServerEvents.RESPONSE_TEXT_DELTA
                 handle_response_text_delta); [reflexivity | reflexivity | ].
      exact registered_text_delta.
    + rewrite (handle_event_registered _ w ServerEvents.RESPONSE_FUNCTION_CALL_ARGUMENTS_DELTA
                 handle_function_call_arguments_delta); [| reflexivity | ].
      * unfold handle_function_call_arguments_delta, modify_self. cbn.
        now destruct s.
      * exact registered_arguments_delta.
Qed.

(* ===================================================================== *)
(** ** Turn arbitration *)
(* ===================================================================== *)

Lemma response_created_outcome (ev : event) (w : env) (s : state) :
  handle_response_created ev w s
  = Ok tt {| self := set_response_in_progress true
                       (set_microphone (Mic.start_receiving (microphone (self s))) (self s));
             websocket := websocket s;
             trace := trace s |}.
Proof. reflexivity. Qed.

Lemma response_done_outcome (ev : event) (w : env) (s : state) :
  exists s',
    handle_response_done ev w s = Ok tt s'
    /\ websocket s' = websocket s
    /\ is_receiving (microphone (self s')) = false
    /\ is_recording (microphone (self s')) = is_recording (microphone (self s))
    /\ assistant_reply (self s') = ""
    /\ audio_chunks (self s') = [].
Proof.
  unfold handle_response_done, bind at 1, get_self.
  destruct (response_start_time (self s)); destruct (audio_chunks (self s));
    eexists; (split; [reflexivity|]); cbn; auto.
Qed.

Lemma rate_limits_updated_outcome (ev : event) (w : env) (s : state) :
  exists s',
    handle_rate_limits_updated ev w s = Ok tt s'
    /\ turn_flags s' = (true, is_receiving (microphone (self s)))
    /\ response_in_progress (self s') = false.
Proof. eexists. split; [reflexivity|]. cbn. auto. Qed.

(** While receiving is on, the audio loop neither drains the queue nor sends
    anything: it sleeps. *)
Lemma audio_loop_idle_while_receiving (s : state) :
  is_receiving (microphone (self s)) = true ->
  send_user_audio_iteration s = Ok tt (traced [Sleep (1 # 10)] s).
Proof.
  intros H. unfold send_user_audio_iteration, bind, get_self. now rewrite H.
Qed.

Lemma callback_ignored_while_receiving (in_data : bytes) (m : AMicrophone) :
  is_receiving m = true -> Mic._callback in_data m = m.
Proof. intros H. unfold Mic._callback. rewrite H. now rewrite andb_false_r. Qed.

(** C1, counterexample. From the client as [__init__] leaves it, a session
    that receives response.created and then rate_limits.updated has the
    recording flag and the receiving flag both on. *)
Lemma recording_and_receiving_both_on :
  turn_flags (state_of_run (run [Sample.overlapping_turns] (start (init [] []))))
  = (true, true).
Proof. vm_compute. reflexivity. Qed.

(** C1, as the code has it. The two flags are not exclusive: the handler of
    rate_limits.updated turns recording on and leaves receiving as it is.
    What keeps the turns apart is the gate on the two flags together: while
    receiving is on, whatever recording says, a frame from the device leaves
    the microphone unchanged and the audio loop drains and sends nothing.
    Handling response.created always leaves recording off and receiving on;
    handling response.done always leaves receiving off. *)
Theorem turn_arbitration
    (created done updated : event) (w : env) (s : state) (in_data : bytes) :
  created !! "type" = Some (JStr ServerEvents.RESPONSE_CREATED) ->
  done !! "type" = Some (JStr ServerEvents.RESPONSE_DONE) ->
  updated !! "type" = Some (JStr ServerEvents.RATE_LIMITS_UPDATED) ->
  (exists s', handle_event created w s = Ok tt s' /\ turn_flags s' = (false, true))
  /\ (exists s', handle_event done w s = Ok tt s'
                 /\ is_receiving (microphone (self s')) = false)
  /\ (exists s', handle_event updated w s = Ok tt s'
                 /\ turn_flags s' = (true, is_receiving (microphone (self s))))
  /\ (is_receiving (microphone (self s)) = true ->
      Mic._callback in_data (microphone (self s)) = microphone (self s)
      /\ send_user_audio_iteration s = Ok tt (traced [Sleep (1 # 10)] s)).
Proof.
  intros Hc Hd Hu. repeat split.
  - rewrite (handle_event_registered created w _ _ Hc registered_response_created).
    rewrite response_created_outcome. eexists. split; reflexivity.
  - rewrite (handle_event_registered done w _ _ Hd registered_response_done).
    destruct (response_done_outcome done w s) as (s' & Hrun & _ & Hrecv & _).
    exists s'. auto.
  - rewrite (handle_event_registered updated w _ _ Hu registered_rate_limits_updated).
    destruct (rate_limits_updated_outcome updated w s) as (s' & Hrun & Hflags & _).
    exists s'. auto.
  - now apply callback_ignored_while_receiving.
  - now apply audio_loop_idle_while_receiving.
Qed.

(** The statement at a state in which the assistant is responding. *)
Lemma turn_arbitration_witness :
  (exists s', handle_event (Sample.event_of ServerEvents.RESPONSE_CREATED) Sample.quiet
                (state_of_run (run [Sample.overlapping_turns] (start (init [] [])))) = Ok tt s'
              /\ turn_flags s' = (false, true))
  /\ (exists s', handle_event (Sample.event_of ServerEvents.RESPONSE_DONE) Sample.quiet
                   (state_of_run (run [Sample.overlapping_turns] (start (init [] [])))) = Ok tt s'
                 /\ is_receiving (microphone (self s')) = false)
  /\ (exists s', handle_event (Sample.event_of ServerEvents.RATE_LIMITS_UPDATED) Sample.quiet
                   (state_of_run (run [Sample.overlapping_turns] (start (init [] [])))) = Ok tt s'
                 /\ turn_flags s'
                    = (true, is_receiving (microphone (self
                         (state_of_run (run [Sample.overlapping_turns] (start (init [] []))))))))
  /\ (is_receiving (microphone (self
         (state_of_run (run [Sample.overlapping_turns] (start (init [] [])))))) = true ->
      Mic._callback "ab" (microphone (self
         (state_of_run (run [Sample.overlapping_turns] (start (init [] []))))))
      = microphone (self (state_of_run (run [Sample.overlapping_turns] (start (init [] [])))))
      /\ send_user_audio_iteration
           (state_of_run (run [Sample.overlapping_turns] (start (init [] []))))
         = Ok tt (traced [Sleep (1 # 10)]
                    (state_of_run (run [Sample.overlapping_turns] (start (init [] [])))))).
Proof.
  apply (turn_arbitration
           (Sample.event_of ServerEvents.RESPONSE_CREATED)
           (Sample.event_of ServerEvents.RESPONSE_DONE)
           (Sample.event_of ServerEvents.RATE_LIMITS_UPDATED)
           Sample.quiet
           (state_of_run (run [Sample.overlapping_turns] (start (init [] []))))
           "ab"); reflexivity.
Defined.

(* ===================================================================== *)
(** ** Exceptions in handlers *)
(* ===================================================================== *)







(* ===================================================================== *)
(** ** Reconnecting after a keep-alive timeout *)
(* ===================================================================== *)

Lemma run_cleanup_outcome (s : state) :
  run_cleanup s
  = Ok tt {| self := set_microphone (Mic.stop_recording (microphone (self s))) (self s);
             websocket := websocket s;
             trace := trace s ++ [MicClose] |}.
Proof. reflexivity. Qed.




(* ===================================================================== *)
(** ** The statements at concrete inputs *)
(* ===================================================================== *)

(** C9 at a live client with no pending call. *)
Lemma arguments_done_without_pending_call_witness :
  handle_function_call_arguments_done SampleCalls.done_event Sample.quiet Sample.live
  = Ok tt Sample.live
  /\ handle_event SampleCalls.done_event Sample.quiet Sample.live = Ok tt Sample.live.
Proof.
  apply (arguments_done_without_pending_call SampleCalls.done_event Sample.quiet Sample.live);
    reflexivity.
Defined.

(** C5 at the sample function call and the deltas "{" and "}". *)
Lemma arguments_accumulate_in_order_witness :
  exists s',
    process_ws_messages
      (arrival_of Sample.added_event Sample.quiet
       :: map (fun a => arrival_of a.1 a.2) SampleCalls.two_deltas)
      Sample.live
    = (Running, s')
    /\ function_call (self s') = Some Sample.call_item
    /\ function_call_args (self s') = join_bytes ["{"; "}"].
Proof.
  apply (arguments_accumulate_in_order Sample.live Sample.added_event Sample.call_item
           Sample.quiet SampleCalls.two_deltas ["{"; "}"]).
  - reflexivity.
  - repeat split; reflexivity.
  - repeat constructor; reflexivity.
Defined.

(** C4 at the call of [get_current_time] without arguments. *)
Lemma execute_function_call_never_raises_witness :
  exists s',
    execute_function_call (JStr "get_current_time") (JStr "call_1") (JDict ∅)
      Sample.quiet Sample.live = Ok tt s'
    /\ sent_events (trace s')
       = sent_events (trace Sample.live)
         ++ FunctionExecutor.complaint (HStr "get_current_time") (JDict ∅) Sample.quiet
         ++ [ConversationItemCreate
               (FunctionCallOutput (JStr "call_1")
                  (FunctionExecutor.execute (HStr "get_current_time") (JDict ∅) Sample.quiet));
             ResponseCreate]
    /\ self s' = set_function_call_args "" (set_function_call None (self Sample.live))
    /\ websocket s' = Open
    /\ (FunctionExecutor.resolve (HStr "get_current_time") = None ->
        FunctionExecutor.execute (HStr "get_current_time") (JDict ∅) Sample.quiet
        = JDict {[ "error" := JStr ("Function '" +:+ py_str (HStr "get_current_time")
                                    +:+ "' not found.") ]})
    /\ (forall f description,
          FunctionExecutor.resolve (HStr "get_current_time") = Some f ->
          f Sample.quiet (JDict ∅) = Threw description ->
          FunctionExecutor.execute (HStr "get_current_time") (JDict ∅) Sample.quiet
          = JDict {[ "error" := JStr ("Error executing function '"
                                      +:+ py_str (HStr "get_current_time")
                                      +:+ "': " +:+ description) ]})
    /\ (forall f v,
          FunctionExecutor.resolve (HStr "get_current_time") = Some f ->
          f Sample.quiet (JDict ∅) = Returned v ->
          FunctionExecutor.execute (HStr "get_current_time") (JDict ∅) Sample.quiet = v).
Proof.
  apply (execute_function_call_never_raises (JStr "get_current_time") (JStr "call_1")
           (JDict ∅) (HStr "get_current_time") Sample.quiet Sample.live);
    reflexivity.
Defined.



(** The scenario of the specification: a function call [get_current_time]
    with call id "call_1" and no argument deltas runs the function on the
    empty record and sends exactly two events, the function-call output with
    that call id and the current time, and a response.create. *)
Example current_time_scenario :
  let r := process_ws_messages
             [ arrival_of Sample.added_event Sample.quiet;
               arrival_of SampleCalls.done_event Sample.quiet ]
             Sample.live in
  r.1 = Running
  /\ sent_events (trace r.2)
     = [ ConversationItemCreate
           (FunctionCallOutput (JStr "call_1")
              (JDict {[ "current_time" := JStr "2024-10-01 12:00:00" ]}));
         ResponseCreate ]
  /\ function_call (self r.2) = None.
Proof. vm_compute. repeat split; reflexivity. Qed.

(* ===================================================================== *)
(** * Further properties of the code *)
(* ===================================================================== *)

(** ** The handler registry and the dispatch *)

(** X1. [register] then [get_handler]: the registered type answers with the
    handler registered last, every other type answers as before, registering
    twice keeps the second handler only, the empty registry knows no type,
    and a list or a dict as the type is the [TypeError] of an unhashable key. *)
Theorem registry_register_then_get
    (hs : gmap string (gmap string json -> env -> M unit))
    (t t' : string) (h h2 : gmap string json -> env -> M unit)
    (l : list json) (d : gmap string json) :
  EventHandlers.get_handler (EventHandlers.register t h hs) (JStr t) = Some (Some h)
  /\ EventHandlers.get_handler (EventHandlers.register t h hs) (JStr t')
     = (if decide (t = t') then Some (Some h) else EventHandlers.get_handler hs (JStr t'))
  /\ EventHandlers.register t h2 (EventHandlers.register t h hs) = EventHandlers.register t h2 hs
  /\ EventHandlers.get_handler EventHandlers.init (JStr t) = Some None
  /\ EventHandlers.get_handler hs JNull = Some None
  /\ EventHandlers.get_handler hs (JList l) = None
  /\ EventHandlers.get_handler hs (JDict d) = None.
Proof.
  unfold EventHandlers.get_handler, EventHandlers.register, EventHandlers.init.
  cbn [py_hash]. repeat split.
  - now rewrite lookup_insert_eq.
  - rewrite lookup_insert. now destruct (decide (t = t')).
  - apply insert_insert_eq.
Qed.

(** The event types with a handler. *)
Lemma registered_types (t : string) :
  is_Some (event_handlers !! t)
  <-> t ∈ [ ServerEvents.RESPONSE_CREATED; ServerEvents.RESPONSE_OUTPUT_ITEM_ADDED;
            ServerEvents.RESPONSE_FUNCTION_CALL_ARGUMENTS_DELTA;
            ServerEvents.RESPONSE_FUNCTION_CALL_ARGUMENTS_DONE;
            ServerEvents.RESPONSE_TEXT_DELTA; ServerEvents.RESPONSE_AUDIO_DELTA;
            ServerEvents.RESPONSE_DONE; ServerEvents.ERROR;
            ServerEvents.INPUT_AUDIO_BUFFER_SPEECH_STARTED;
            ServerEvents.INPUT_AUDIO_BUFFER_SPEECH_STOPPED;
            ServerEvents.RATE_LIMITS_UPDATED ].
Proof.
  unfold event_handlers, _register_event_handlers, EventHandlers.register, EventHandlers.init.
  rewrite !lookup_insert_is_Some', lookup_empty, is_Some_alt.
  rewrite !elem_of_cons, elem_of_nil. intuition congruence.
Qed.

(** X2. An event whose type has no handler is tolerated: [handle_event] logs
    one warning and changes nothing else, and the message loop goes on with
    the messages that follow. The types with a handler are the eleven that
    [_register_event_handlers] registers. *)
Theorem unregistered_event_is_tolerated
    (ev : event) (w : env) (t : string) (s : state) (rest : list (message * env)) :
  websocket s = Open ->
  ev !! "type" = Some (JStr t) ->
  t ∉ [ ServerEvents.RESPONSE_CREATED; ServerEvents.RESPONSE_OUTPUT_ITEM_ADDED;
        ServerEvents.RESPONSE_FUNCTION_CALL_ARGUMENTS_DELTA;
        ServerEvents.RESPONSE_FUNCTION_CALL_ARGUMENTS_DONE;
        ServerEvents.RESPONSE_TEXT_DELTA; ServerEvents.RESPONSE_AUDIO_DELTA;
        ServerEvents.RESPONSE_DONE; ServerEvents.ERROR;
        ServerEvents.INPUT_AUDIO_BUFFER_SPEECH_STARTED;
        ServerEvents.INPUT_AUDIO_BUFFER_SPEECH_STOPPED;
        ServerEvents.RATE_LIMITS_UPDATED ] ->
  handle_event ev w s
  = Ok tt (traced [Log WARNING [Lit "Unhandled event type: "; Val (JStr t)]] s)
  /\ process_ws_messages (arrival_of ev w :: rest) s
     = process_ws_messages rest
         (traced [incoming t; Log WARNING [Lit "Unhandled event type: "; Val (JStr t)]] s).
Proof.
  intros Hopen Hty Hnot.
  assert (Hnone : event_handlers !! t = None).
  { apply eq_None_not_Some. now rewrite registered_types. }
  assert (Hev : forall s0, handle_event ev w s0
            = Ok tt (traced [Log WARNING [Lit "Unhandled event type: "; Val (JStr t)]] s0)).
  { intros s0. unfold handle_event, dict_get, EventHandlers.get_handler.
    rewrite Hty. cbn [default from_option id py_hash]. now rewrite Hnone. }
  split; [apply Hev|].
  cbn [process_ws_messages].
  rewrite (process_ws_message_open ev w t s Hopen Hty), Hev, traced_traced.
  reflexivity.
Qed.

Lemma unregistered_event_is_tolerated_witness :
  handle_event (Sample.event_of ServerEvents.SESSION_CREATED) Sample.quiet Sample.live
  = Ok tt (traced [Log WARNING [Lit "Unhandled event type: ";
                                Val (JStr ServerEvents.SESSION_CREATED)]] Sample.live)
  /\ process_ws_messages
       (arrival_of (Sample.event_of ServerEvents.SESSION_CREATED) Sample.quiet :: [])
       Sample.live
     = process_ws_messages []
         (traced [incoming ServerEvents.SESSION_CREATED;
                  Log WARNING [Lit "Unhandled event type: ";
                               Val (JStr ServerEvents.SESSION_CREATED)]] Sample.live).
Proof.
  apply (unregistered_event_is_tolerated (Sample.event_of ServerEvents.SESSION_CREATED)
           Sample.quiet ServerEvents.SESSION_CREATED Sample.live []).
  - reflexivity.
  - reflexivity.
  - rewrite !elem_of_cons, elem_of_nil. intros H.
    repeat (destruct H as [H | H]; [discriminate H|]). exact H.
Defined.

(** ** The message loop at its edges *)

(** X3. A received text that is not JSON, a JSON value that is not an
    object, and an object whose type is a list or an object are not caught
    by the message loop: the task ends with [JSONDecodeError],
    [AttributeError] and [TypeError], before any handler runs and without a
    log line, and the messages that follow are not read. *)
Theorem undecodable_message_ends_message_task
    (v : json) (ev : event) (w : env) (s : state) (rest : list (message * env)) :
  websocket s = Open ->
  (forall d, v <> JDict d) ->
  py_hash (dict_get ev "type" (JStr "Unknown")) = None ->
  process_ws_messages ((Malformed, w) :: rest) s = (Failed JSONDecodeError, s)
  /\ process_ws_messages ((Decoded v, w) :: rest) s = (Failed AttributeError, s)
  /\ process_ws_messages (arrival_of ev w :: rest) s = (Failed TypeError, s).
Proof.
  intros Hopen Hv Hty.
  cbn [process_ws_messages].
  unfold process_ws_message, try_except, bind, ws_recv, arrival_of. rewrite Hopen.
  repeat split.
  - destruct v; try reflexivity. now destruct (Hv d).
  - cbn. unfold log_ws_event. now rewrite Hty.
Qed.

Lemma undecodable_message_ends_message_task_witness :
  process_ws_messages ((Malformed, Sample.quiet) :: []) Sample.live
  = (Failed JSONDecodeError, Sample.live)
  /\ process_ws_messages ((Decoded (JList []), Sample.quiet) :: []) Sample.live
     = (Failed AttributeError, Sample.live)
  /\ process_ws_messages
       (arrival_of {[ "type" := JList [] ]} Sample.quiet :: []) Sample.live
     = (Failed TypeError, Sample.live).
Proof.
  apply (undecodable_message_ends_message_task (JList []) {[ "type" := JList [] ]}
           Sample.quiet Sample.live []).
  - reflexivity.
  - intros d H. discriminate H.
  - reflexivity.
Defined.

(** X4. Once the connection is closed, normally or with an error, the
    message loop logs one warning and returns: the task ends without an
    exception and reads nothing more. In a session, the loss of the
    connection ends a waiting message task the same way, and what arrives
    later changes nothing. *)
Theorem closed_connection_ends_message_loop
    (e : exn) (s : state) (arrival : message * env) (rest : list (message * env))
    (m : message) (w : env) :
  websocket s = Lost e ->
  is_ConnectionClosed e = true ->
  process_ws_messages (arrival :: rest) s
  = (Finished, traced [Log WARNING [Lit "WebSocket connection lost."]] s)
  /\ background (Drop e) {| st := {| self := self s; websocket := Open; trace := trace s |};
                            ws_task := Running |}
     = {| st := traced [Log WARNING [Lit "WebSocket connection lost."]] s;
          ws_task := Finished |}
  /\ background (Receive m w)
       {| st := traced [Log WARNING [Lit "WebSocket connection lost."]] s;
          ws_task := Finished |}
     = {| st := traced [Log WARNING [Lit "WebSocket connection lost."]] s;
          ws_task := Finished |}.
Proof.
  intros Hlost Hclosed. repeat split.
  - cbn [process_ws_messages].
    unfold process_ws_message, try_except, bind, ws_recv. rewrite Hlost, Hclosed.
    reflexivity.
  - cbn [background]. unfold ws_task_wake, lose_connection.
    cbn [st websocket ws_task self trace]. unfold ws_task_turn. cbn [ws_task st].
    unfold process_ws_message, try_except, bind, raise. rewrite Hclosed.
    unfold traced. cbn. now rewrite Hlost.
Qed.

Lemma closed_connection_ends_message_loop_witness :
  process_ws_messages
    (arrival_of (Sample.event_of ServerEvents.RESPONSE_CREATED) Sample.quiet :: [])
    {| self := self Sample.live; websocket := Lost Sample.keepalive_timeout; trace := [] |}
  = (Finished,
     traced [Log WARNING [Lit "WebSocket connection lost."]]
       {| self := self Sample.live; websocket := Lost Sample.keepalive_timeout; trace := [] |})
  /\ background (Drop Sample.keepalive_timeout)
       {| st := {| self := self Sample.live; websocket := Open; trace := [] |};
          ws_task := Running |}
     = {| st := traced [Log WARNING [Lit "WebSocket connection lost."]]
                  {| self := self Sample.live; websocket := Lost Sample.keepalive_timeout;
                     trace := [] |};
          ws_task := Finished |}
  /\ background (Receive Malformed Sample.quiet)
       {| st := traced [Log WARNING [Lit "WebSocket connection lost."]]
                  {| self := self Sample.live; websocket := Lost Sample.keepalive_timeout;
                     trace := [] |};
          ws_task := Finished |}
     = {| st := traced [Log WARNING [Lit "WebSocket connection lost."]]
                  {| self := self Sample.live; websocket := Lost Sample.keepalive_timeout;
                     trace := [] |};
          ws_task := Finished |}.
Proof.
  apply (closed_connection_ends_message_loop Sample.keepalive_timeout
           {| self := self Sample.live; websocket := Lost Sample.keepalive_timeout; trace := [] |}
           (arrival_of (Sample.event_of ServerEvents.RESPONSE_CREATED) Sample.quiet) []
           Malformed Sample.quiet); reflexivity.
Defined.

(** ** The end of a response *)

Lemma played_app (xs ys : list effect) : played (xs ++ ys) = played xs ++ played ys.
Proof. apply omap_app. Qed.

Lemma printed_app (xs ys : list effect) : printed (xs ++ ys) = printed xs ++ printed ys.
Proof. apply omap_app. Qed.

Lemma response_done_state (ev : event) (w : env) (s : state) :
  exists extra,
    handle_response_done ev w s
    = Ok tt {| self := after_response_done (self s);
               websocket := websocket s;
               trace := trace s ++ extra |}
    /\ sent_events extra = []
    /\ played extra
       = match audio_chunks (self s) with
         | [] => []
         | _ => [(join_bytes (audio_chunks (self s)), 9600%Z)]
         end
    /\ (response_start_time (self s) = None -> audio_chunks (self s) = [] ->
        extra = response_done_quiet).
Proof.
  unfold handle_response_done, bind at 1, get_self, after_response_done.
  destruct (response_start_time (self s)) as [t0|] eqn:Hstart;
    destruct (audio_chunks (self s)) as [|c cs] eqn:Hchunks.
  - exists [Log INFO [Lit "realtime_api_response"; Lit " took "; Num (perf_counter w - t0);
                      Lit " seconds"];
            Log INFO [Lit "Assistant response complete."];
            Log INFO [Lit "Calling stop_receiving()"]].
    cbn. rewrite <- !app_assoc. repeat split; try reflexivity. discriminate.
  - eexists (Log INFO [Lit "realtime_api_response"; Lit " took "; Num (perf_counter w - t0);
                       Lit " seconds"]
             :: Log INFO [Lit "Assistant response complete."] :: _ :: Play _ _ :: _ :: _ :: _
             :: [Log INFO [Lit "Calling stop_receiving()"]]).
    cbn. rewrite <- !app_assoc. cbn. repeat split; try reflexivity. discriminate.
  - exists response_done_quiet.
    unfold with_microphone, modify_self, set_microphone, set_audio_chunks,
      set_assistant_reply, set_response_start_time, response_done_quiet.
    cbn. rewrite <- !app_assoc, Hstart. repeat split; reflexivity.
  - eexists (Log INFO [Lit "Assistant response complete."] :: _ :: Play _ _ :: _ :: _ :: _
             :: [Log INFO [Lit "Calling stop_receiving()"]]).
    unfold with_microphone, modify_self, set_microphone, set_audio_chunks,
      set_assistant_reply, set_response_start_time.
    cbn. rewrite <- !app_assoc, Hstart. cbn. repeat split; try reflexivity. discriminate.
Qed.

(** X5. Handling response.done always returns normally and leaves the
    assistant text empty, the audio chunk list empty, no start time and
    receiving off, with every other field and the connection as they were;
    it sends nothing; it plays the accumulated chunks, joined in order and
    followed by 9600 bytes of silence, exactly when there are any; and
    handling it again right after adds two log lines and changes nothing. *)
Theorem response_done_resets_the_response (ev : event) (w w' : env) (s : state) :
  exists extra,
    handle_response_done ev w s
    = Ok tt {| self := after_response_done (self s);
               websocket := websocket s;
               trace := trace s ++ extra |}
    /\ sent_events extra = []
    /\ played extra
       = match audio_chunks (self s) with
         | [] => []
         | _ => [(join_bytes (audio_chunks (self s)), 9600%Z)]
         end
    /\ assistant_reply (after_response_done (self s)) = ""
    /\ audio_chunks (after_response_done (self s)) = []
    /\ response_start_time (after_response_done (self s)) = None
    /\ is_receiving (microphone (after_response_done (self s))) = false
    /\ is_recording (microphone (after_response_done (self s)))
       = is_recording (microphone (self s))
    /\ handle_response_done ev w'
         {| self := after_response_done (self s);
            websocket := websocket s;
            trace := trace s ++ extra |}
       = Ok tt {| self := after_response_done (self s);
                  websocket := websocket s;
                  trace := (trace s ++ extra) ++ response_done_quiet |}.
Proof.
  destruct (response_done_state ev w s) as (extra & Hrun & Hsent & Hplayed & _).
  exists extra. repeat split; try assumption.
  destruct (response_done_state ev w'
              {| self := after_response_done (self s); websocket := websocket s;
                 trace := trace s ++ extra |})
    as (extra' & Hrun' & _ & _ & Hquiet).
  rewrite Hrun'. rewrite (Hquiet eq_refl eq_refl). reflexivity.
Qed.

(** ** Text and audio of a response *)

Lemma text_delta_step (ev : event) (d : string) (w : env) (s : state) :
  websocket s = Open ->
  is_text_delta ev d ->
  process_ws_message (ws_recv (arrival_of ev w)) s
  = Ok true {| self := set_assistant_reply (assistant_reply (self s) +:+ d) (self s);
               websocket := Open;
               trace := trace s ++ [incoming ServerEvents.RESPONSE_TEXT_DELTA;
                                    Print ("Assistant: " +:+ d)] |}.
Proof.
  intros Hopen (Hty & Hdelta).
  rewrite (process_ws_message_open ev w _ s Hopen Hty).
  rewrite (handle_event_registered ev w _ _ Hty registered_text_delta).
  unfold handle_response_text_delta, dict_get. rewrite Hdelta. cbn.
  rewrite Hopen, <- app_assoc. reflexivity.
Qed.

(** X6. Text deltas [d1 .. dn] received on an open connection leave the
    assistant text extended by [d1 + ... + dn], in order, and each delta is
    written to the terminal as it arrives, prefixed by "Assistant: "; the
    loop keeps running and nothing is sent. *)
Theorem text_deltas_accumulate_and_print
    (deltas : list (gmap string json * env)) (ds : list string) (s : state) :
  websocket s = Open ->
  Forall2 (fun a d => is_text_delta a.1 d) deltas ds ->
  exists s',
    process_ws_messages (map (fun a => arrival_of a.1 a.2) deltas) s = (Running, s')
    /\ assistant_reply (self s') = assistant_reply (self s) +:+ join_bytes ds
    /\ printed (trace s') = printed (trace s) ++ map (String.append "Assistant: ") ds
    /\ sent_events (trace s') = sent_events (trace s)
    /\ websocket s' = Open.
Proof.
  intros Hopen Hall. revert s Hopen.
  induction Hall as [|[ev w] d deltas ds Hd _ IH]; intros s Hopen.
  - exists s. cbn [map process_ws_messages].
    rewrite join_bytes_nil, append_empty_r, !app_nil_r. auto.
  - cbn [map process_ws_messages fst snd].
    rewrite (text_delta_step ev d w s Hopen Hd).
    match goal with
    | |- context [process_ws_messages _ ?s1] =>
        destruct (IH s1 eq_refl) as (s' & Hrun & Hreply & Hprint & Hsent & Hopen')
    end.
    exists s'. rewrite Hrun. split; [reflexivity|].
    rewrite Hreply, Hprint, Hsent.
    cbn [self trace assistant_reply set_assistant_reply].
    rewrite join_bytes_cons, append_assoc, printed_app, sent_events_app.
    cbn. rewrite app_nil_r, <- app_assoc. auto.
Qed.

Lemma text_deltas_accumulate_and_print_witness :
  exists s',
    process_ws_messages
      (map (fun a => arrival_of a.1 a.2)
         [ (Sample.delta_event ServerEvents.RESPONSE_TEXT_DELTA "Good ", Sample.quiet);
           (Sample.delta_event ServerEvents.RESPONSE_TEXT_DELTA "day", Sample.quiet) ])
      Sample.live
    = (Running, s')
    /\ assistant_reply (self s')
       = assistant_reply (self Sample.live) +:+ join_bytes ["Good "; "day"]
    /\ printed (trace s')
       = printed (trace Sample.live) ++ map (String.append "Assistant: ") ["Good "; "day"]
    /\ sent_events (trace s') = sent_events (trace Sample.live)
    /\ websocket s' = Open.
Proof.
  apply (text_deltas_accumulate_and_print
           [ (Sample.delta_event ServerEvents.RESPONSE_TEXT_DELTA "Good ", Sample.quiet);
             (Sample.delta_event ServerEvents.RESPONSE_TEXT_DELTA "day", Sample.quiet) ]
           ["Good "; "day"] Sample.live).
  - reflexivity.
  - repeat constructor; reflexivity.
Defined.

Lemma audio_delta_step (ev : event) (chunk : string) (w : env) (s : state) :
  websocket s = Open ->
  is_audio_delta (ev, w) chunk ->
  process_ws_message (ws_recv (arrival_of ev w)) s
  = Ok true {| self := set_audio_chunks (audio_chunks (self s) ++ [chunk]) (self s);
               websocket := Open;
               trace := trace s ++ [incoming ServerEvents.RESPONSE_AUDIO_DELTA] |}.
Proof.
  intros Hopen (Hty & [v Hdelta] & Hdecode). cbn [fst snd] in *.
  rewrite (process_ws_message_open ev w _ s Hopen Hty).
  rewrite (handle_event_registered ev w _ _ Hty registered_audio_delta).
  unfold handle_response_audio_delta. rewrite Hdelta, Hdecode. cbn.
  now rewrite Hopen.
Qed.

Lemma audio_deltas_append (deltas : list (gmap string json * env)) (chunks : list string) :
  Forall2 is_audio_delta deltas chunks ->
  forall s, websocket s = Open ->
  exists s',
    process_ws_messages (map (fun a => arrival_of a.1 a.2) deltas) s = (Running, s')
    /\ websocket s' = Open
    /\ audio_chunks (self s') = audio_chunks (self s) ++ chunks
    /\ played (trace s') = played (trace s).
Proof.
  induction 1 as [|[ev w] c deltas chunks Hd _ IH]; intros s Hopen.
  - exists s. cbn [map process_ws_messages]. rewrite app_nil_r. auto.
  - cbn [map process_ws_messages fst snd].
    rewrite (audio_delta_step ev c w s Hopen Hd).
    match goal with
    | |- context [process_ws_messages _ ?s1] =>
        destruct (IH s1 eq_refl) as (s' & Hrun & Hopen' & Hchunks & Hplayed)
    end.
    exists s'. rewrite Hrun, Hchunks, Hplayed.
    cbn [self trace audio_chunks set_audio_chunks].
    rewrite played_app, <- app_assoc. cbn. rewrite app_nil_r. auto.
Qed.

(** X7. The audio of a response is played in the order it arrived: after
    audio deltas that decode to the chunks [c1 .. cn], on a client that held
    no audio, nothing has been played yet and the chunk list is
    [c1 .. cn]; the response.done event that follows plays [c1 + ... + cn]
    once, when there is at least one chunk, and leaves the chunk list empty. *)
Theorem audio_deltas_are_played_in_order
    (deltas : list (gmap string json * env)) (chunks : list string)
    (done : event) (w : env) (s : state) :
  websocket s = Open ->
  audio_chunks (self s) = [] ->
  Forall2 is_audio_delta deltas chunks ->
  done !! "type" = Some (JStr ServerEvents.RESPONSE_DONE) ->
  exists s1 s2,
    process_ws_messages (map (fun a => arrival_of a.1 a.2) deltas) s = (Running, s1)
    /\ audio_chunks (self s1) = chunks
    /\ played (trace s1) = played (trace s)
    /\ process_ws_messages (map (fun a => arrival_of a.1 a.2) deltas ++ [arrival_of done w]) s
       = (Running, s2)
    /\ audio_chunks (self s2) = []
    /\ played (trace s2)
       = played (trace s)
         ++ match chunks with
            | [] => []
            | _ => [(join_bytes chunks, 9600%Z)]
            end.
Proof.
  intros Hopen Hempty Hall Hdone.
  assert (Hloop : forall inbox last s0 s1,
            process_ws_messages inbox s0 = (Running, s1) ->
            process_ws_messages (inbox ++ [last]) s0 = process_ws_messages [last] s1).
  { induction inbox as [|x inbox IHi]; intros last s0 s1.
    - cbn [process_ws_messages app]. now intros [= ->].
    - cbn [process_ws_messages app].
      destruct (process_ws_message (ws_recv x) s0) as [[|] s0'|e s0'];
        [apply IHi | discriminate | discriminate]. }
  destruct (audio_deltas_append deltas chunks Hall s Hopen)
    as (s1 & Hrun & Hopen1 & Hchunks & Hplayed).
  rewrite Hempty in Hchunks. cbn [app] in Hchunks.
  destruct (response_done_state done w (traced [incoming ServerEvents.RESPONSE_DONE] s1))
    as (extra & Hdo & _ & Hplay & _).
  exists s1. eexists. split; [exact Hrun|]. split; [exact Hchunks|]. split; [exact Hplayed|].
  rewrite (Hloop _ _ _ _ Hrun). cbn [process_ws_messages].
  rewrite (process_ws_message_open done w _ s1 Hopen1 Hdone).
  rewrite (handle_event_registered done w _ _ Hdone registered_response_done).
  rewrite Hdo. split; [reflexivity|]. split; [reflexivity|].
  cbn [trace traced self] in *. rewrite !played_app, Hplay, Hplayed, Hchunks.
  cbn. now rewrite app_nil_r.
Qed.

Lemma audio_deltas_are_played_in_order_witness :
  exists s1 s2,
    process_ws_messages
      (map (fun a => arrival_of a.1 a.2)
         [ (Sample.delta_event ServerEvents.RESPONSE_AUDIO_DELTA "eA==", Sample.decoding_x) ])
      Sample.live
    = (Running, s1)
    /\ audio_chunks (self s1) = ["x"]
    /\ played (trace s1) = played (trace Sample.live)
    /\ process_ws_messages
         (map (fun a => arrival_of a.1 a.2)
            [ (Sample.delta_event ServerEvents.RESPONSE_AUDIO_DELTA "eA==", Sample.decoding_x) ]
          ++ [arrival_of (Sample.event_of ServerEvents.RESPONSE_DONE) Sample.quiet])
         Sample.live
       = (Running, s2)
    /\ audio_chunks (self s2) = []
    /\ played (trace s2)
       = played (trace Sample.live)
         ++ match ["x"] with
            | [] => []
            | _ => [(join_bytes ["x"], 9600%Z)]
            end.
Proof.
  apply (audio_deltas_are_played_in_order
           [ (Sample.delta_event ServerEvents.RESPONSE_AUDIO_DELTA "eA==", Sample.decoding_x) ]
           ["x"] (Sample.event_of ServerEvents.RESPONSE_DONE) Sample.quiet Sample.live).
  - reflexivity.
  - reflexivity.
  - repeat constructor. exists (JStr "eA=="). reflexivity.
  - reflexivity.
Defined.

(** ** The end of the user's turn *)


